(** * Wind data adapter: a shallow embedding of [wind_utils.py]

    The adapter ([WindProvider]) is thin glue around three external
    collaborators: the vendor SDK object [w] of WindPy, the cache manager
    and pandas.  The embedding keeps the adapter's own control flow
    (connection guard, [try]/[except] blocks, early returns, dictionary
    and column updates) and takes the collaborators as an environment of
    functions whose answers may depend on the calls made so far.

    Python strings are kept as UTF-8 byte strings.  Every pattern the
    adapter searches for or removes is ASCII, and UTF-8 never embeds an
    ASCII byte inside a multi-byte character, so searching, replacing and
    prefix tests on the bytes agree with the same operations on code
    points.  Log calls write to an external sink and are left out. *)

From stdpp Require Import gmap strings list fin_maps.
From Stdlib Require Import ZArith Lia Ascii.

Open Scope string_scope.

(** ** Python string primitives *)

Module PyStr.

(** [s.startswith(p)] *)
Fixpoint startswith (p s : string) : bool :=
  match p with
  | "" => true
  | String a p' =>
      match s with
      | "" => false
      | String b s' => Ascii.eqb a b && startswith p' s'
      end
  end.

(** [p in s]: some position of [s] starts with [p]. *)
Fixpoint occurs (p s : string) : bool :=
  startswith p s ||
  match s with
  | "" => false
  | String _ s' => occurs p s'
  end.

(** Left-to-right scan of [s.replace(old, new)] for a non-empty [old]:
    [skip] counts the characters of the current match still to be dropped,
    so matches are the leftmost non-overlapping ones. *)
Fixpoint replace_scan (old new : string) (skip : nat) (s : string) : string :=
  match s with
  | "" => ""
  | String c s' =>
      match skip with
      | S k => replace_scan old new k s'
      | O =>
          if startswith old s
          then new +:+ replace_scan old new (String.length old - 1) s'
          else String c (replace_scan old new 0 s')
      end
  end.

(** With an empty [old], Python puts [new] before every character and at
    the end. *)
Fixpoint interleave (new s : string) : string :=
  match s with
  | "" => new
  | String c s' => new +:+ String c (interleave new s')
  end.

(** [s.replace(old, new)] *)
Definition replace (old new s : string) : string :=
  match old with
  | "" => interleave new s
  | _ => replace_scan old new 0 s
  end.

(** Number of occurrences of the character [c]. *)
Fixpoint count_char (c : ascii) (s : string) : nat :=
  match s with
  | "" => 0
  | String d s' => (if Ascii.eqb c d then 1 else 0) + count_char c s'
  end.

End PyStr.

(** ** Symbol normalisation *)

(** [symbol.replace('sh.', '').replace('sz.', '')] *)
Definition strip_prefixes (symbol : string) : string :=
  PyStr.replace "sz." "" (PyStr.replace "sh." "" symbol).

(** ['.' in symbol] *)
Definition contains_dot (symbol : string) : bool := PyStr.occurs "." symbol.

(** The body of [WindProvider._normalize_symbol] on a [str]. *)
Definition normalize_symbol (symbol : string) : string :=
  let symbol := strip_prefixes symbol in
  if contains_dot symbol then symbol
  else if PyStr.startswith "6" symbol then symbol +:+ ".SH"
  else if PyStr.startswith "0" symbol || PyStr.startswith "3" symbol
       then symbol +:+ ".SZ"
  else if PyStr.startswith "8" symbol then symbol +:+ ".BJ"
  else symbol +:+ ".SZ".

(** ** Python values, exceptions and the caller's symbol argument *)

Set Warnings "-register-all".

(** A cell of a vendor payload, a table or a mapping.  [VNull] stands for a
    missing value ([None] or [NaN], which pandas treats alike); [VObj] is any
    other object (a float, a date, ...), carried around by the adapter but
    never inspected, and named by its text; [VSeries] is the sub-series that
    a lookup by a repeated label gives. *)
Inductive pyval :=
  | VNull
  | VInt (z : Z)
  | VStr (s : string)
  | VObj (repr : string)
  | VSeries (vals : list pyval).

Inductive exn :=
  | NameError
  | AttributeError
  | KeyError
  | ValueError
  | ReError
  | ExternalError.

Inductive result (A : Type) :=
  | Ok (a : A)
  | Raise (e : exn).
Arguments Ok {A} a.
Arguments Raise {A} e.

(** The [symbol] parameter is annotated [str], which Python does not
    enforce: [AObj] is an argument without string methods (an [int],
    [None], ...), given by the text [str()] makes of it. *)
Inductive arg :=
  | AStr (s : string)
  | AObj (repr : string).

(** [f'{symbol}'] *)
Definition py_format (symbol : arg) : string :=
  match symbol with
  | AStr s => s
  | AObj r => r
  end.

(** The argument as a value stored in a mapping. *)
Definition arg_value (symbol : arg) : pyval :=
  match symbol with
  | AStr s => VStr s
  | AObj r => VObj r
  end.

(** [WindProvider._normalize_symbol]: the first statement that touches the
    argument is [symbol.replace], an [AttributeError] on a non-string. *)
Definition _normalize_symbol (symbol : arg) : result string :=
  match symbol with
  | AStr s => Ok (normalize_symbol s)
  | AObj _ => Raise AttributeError
  end.

(** ** The part of pandas the adapter uses *)

Module Pandas.

(** A table: row labels, and labelled columns in order.  Every column is as
    long as the index. *)
Record DataFrame := {
  index_name : option string;
  index : list pyval;
  columns : list (string * list pyval)
}.

(** [pd.DataFrame()] *)
Definition empty_frame : DataFrame :=
  {| index_name := None; index := []; columns := [] |}.

Definition range_index (n : nat) : list pyval :=
  map (fun i => VInt (Z.of_nat i)) (seq 0 n).

Definition labels (df : DataFrame) : list string := (columns df).*1.

Definition nrows (df : DataFrame) : nat := length (index df).

(** [df.empty]: no row or no column. *)
Definition empty (df : DataFrame) : bool :=
  (nrows df =? 0)%nat || (length (columns df) =? 0)%nat.

(** [col in df.columns] *)
Definition has_column (col : string) (df : DataFrame) : bool :=
  existsb (String.eqb col) (labels df).

(** The columns of [pd.DataFrame(Data).T], not yet named: one per series of
    the payload, short series filled up with missing values.  [None] as
    payload gives the empty frame. *)
Definition pad (n : nat) (series : list pyval) : list pyval :=
  series ++ replicate (n - length series) VNull.

Definition transposed (data : option (list (list pyval)))
  : nat * list (list pyval) :=
  match data with
  | None => (0, [])
  | Some series =>
      let n := foldr Nat.max 0 (map length series) in
      (n, map (pad n) series)
  end.

(** [df.columns = Fields]: a [ValueError] unless there is one name per
    column. *)
Definition set_columns (fields : list string)
    (raw : nat * list (list pyval)) : result DataFrame :=
  if (length fields =? length (snd raw))%nat
  then Ok {| index_name := None;
             index := range_index (fst raw);
             columns := zip fields (snd raw) |}
  else Raise ValueError.

(** [df.index = Times]: a [ValueError] unless there is one label per row. *)
Definition set_index (times : list pyval) (df : DataFrame) : result DataFrame :=
  if (length times =? nrows df)%nat
  then Ok {| index_name := index_name df; index := times; columns := columns df |}
  else Raise ValueError.

(** [df.index.name = name] *)
Definition set_index_name (name : string) (df : DataFrame) : DataFrame :=
  {| index_name := Some name; index := index df; columns := columns df |}.

(** [df[col]] as a series.  A missing label is a [KeyError].  A repeated
    label gives a sub-frame, on which both uses the adapter makes of the
    result fail (assignment to one column, the [.str] accessor); it is
    modelled by the [ValueError] of the former. *)
Definition getitem (col : string) (df : DataFrame) : result (list pyval) :=
  match filter (fun c => String.eqb col (fst c) = true) (columns df) with
  | [] => Raise KeyError
  | [c] => Ok (snd c)
  | _ => Raise ValueError
  end.

(** [df[col] = series]: overwrite the column(s) of that name, or add one at
    the end. *)
Definition setitem (col : string) (vals : list pyval) (df : DataFrame)
  : DataFrame :=
  {| index_name := index_name df;
     index := index df;
     columns :=
       if has_column col df
       then map (fun c => if String.eqb col (fst c) then (fst c, vals) else c)
                (columns df)
       else columns df ++ [(col, vals)] |}.

(** [df[col] = scalar] *)
Definition setitem_scalar (col : string) (v : pyval) (df : DataFrame)
  : DataFrame :=
  setitem col (replicate (nrows df) v) df.

(** [df.reset_index(inplace=True)]: the index becomes the first column,
    under its name (['index'], or ['level_0'] when that is taken, for an
    unnamed index); a [ValueError] when a column of that name exists. *)
Definition reset_index (df : DataFrame) : result DataFrame :=
  let name :=
    match index_name df with
    | Some n => n
    | None => if has_column "index" df then "level_0" else "index"
    end in
  if has_column name df then Raise ValueError
  else Ok {| index_name := None;
             index := range_index (nrows df);
             columns := (name, index df) :: columns df |}.

(** [df.iloc[0]]: the first row, labelled by the columns. *)
Definition iloc0 (df : DataFrame) : list (string * pyval) :=
  map (fun c => (fst c, nth 0 (snd c) VNull)) (columns df).

(** [row.get(key, default)] *)
Definition series_get (key : string) (default : pyval)
    (row : list (string * pyval)) : pyval :=
  match filter (fun c => String.eqb key (fst c) = true) row with
  | [] => default
  | [c] => snd c
  | cs => VSeries (map snd cs)
  end.

(** One row as a mapping; with a repeated label the last column wins. *)
Definition row_dict (df : DataFrame) (i : nat) : gmap string pyval :=
  foldl (fun m c => <[fst c := nth i (snd c) VNull]> m) ∅ (columns df).

(** [df.to_dict('records')] *)
Definition to_dict_records (df : DataFrame) : list (gmap string pyval) :=
  map (row_dict df) (seq 0 (nrows df)).

(** Keep the entries whose mask bit is set. *)
Fixpoint select {A : Type} (mask : list bool) (l : list A) : list A :=
  match mask, l with
  | b :: mask', x :: l' => if b then x :: select mask' l' else select mask' l'
  | _, _ => []
  end.

(** [df[mask]] for a boolean series over the same index. *)
Definition filter_rows (mask : list bool) (df : DataFrame) : DataFrame :=
  {| index_name := index_name df;
     index := select mask (index df);
     columns := map (fun c => (fst c, select mask (snd c))) (columns df) |}.

Definition is_null (v : pyval) : bool :=
  match v with VNull => true | _ => false end.

Definition is_str (v : pyval) : bool :=
  match v with VStr _ => true | _ => false end.

(** The [.str] accessor of a column: refused with an [AttributeError] when
    the column holds values none of which is a string. *)
Definition str_accessor (col : list pyval) : result (list pyval) :=
  if forallb is_null col || existsb is_str col then Ok col
  else Raise AttributeError.

(** [series.str.contains(pat, na=False)] once [pat] is compiled: a cell
    that is not a string does not match. *)
Definition str_contains (matcher : string -> bool) (col : list pyval)
  : list bool :=
  map (fun v => match v with VStr s => matcher s | _ => false end) col.

(** The text before the first ['.']. *)
Fixpoint before_dot (s : string) : string :=
  match s with
  | "" => ""
  | String c s' => if Ascii.eqb c "."%char then "" else String c (before_dot s')
  end.

(** [series.str.split('.').str[0]] *)
Definition str_split_first (col : list pyval) : list pyval :=
  map (fun v => match v with VStr s => VStr (before_dot s) | _ => VNull end) col.

(** [a | b] on boolean series. *)
Definition mask_or (a b : list bool) : list bool :=
  map (fun p => orb (fst p) (snd p)) (zip a b).

End Pandas.

(** ** The collaborators: vendor SDK, cache manager, clock, regex engine *)

(** What a vendor query returns: [ErrorCode], [Data], [Fields], [Times]. *)
Record WindData := {
  ErrorCode : Z;
  Data : option (list (list pyval));
  Fields : list string;
  Times : list pyval
}.

(** What the cache manager hands back from [load_stock_data]. *)
Inductive cached :=
  | CachedNone
  | CachedFrame (df : Pandas.DataFrame)
  | CachedText (s : string)
  | CachedOther.

(** A call that leaves the adapter. *)
Inductive call :=
  | IsConnected
  | Start
  | Stop
  | Wset (tablename options : string)
  | Wsd (codes fields beginTime endTime options : string)
  | Wss (codes fields options : string)
  | CacheFind (symbol : string) (max_age_hours : Z)
  | CacheLoad (cache_key : string)
  | CacheSave (symbol : string) (data : Pandas.DataFrame) (data_source : string).

(** The remote data calls of the vendor SDK. *)
Definition is_data_call (c : call) : bool :=
  match c with
  | Wset _ _ | Wsd _ _ _ _ _ | Wss _ _ _ => true
  | _ => false
  end.

Definition data_calls (h : list call) : list call := List.filter is_data_call h.

(** The environment the module runs in.  Each collaborator answers from the
    calls made so far, so an answer may change from one call to the next;
    any call may raise. *)
Record Env := {
  WIND_AVAILABLE : bool;
  CACHE_AVAILABLE : bool;
  get_cache : result unit;
  w_has_isconnected : bool;
  w_isconnected : list call -> result bool;
  w_start : list call -> result Z;
  w_stop : list call -> result unit;
  w_wset : list call -> string -> string -> result WindData;
  w_wsd : list call -> string -> string -> string -> string -> string
          -> result WindData;
  w_wss : list call -> string -> string -> string -> result WindData;
  find_cached_stock_data : list call -> string -> Z -> result (option string);
  load_stock_data : list call -> string -> result cached;
  save_stock_data : list call -> string -> Pandas.DataFrame -> string
                    -> result string;
  (** [datetime.now()] as ['%Y-%m-%d'], the day a year before it, and
      [datetime.now()] as ['%Y%m%d'] *)
  today : string;
  year_ago : string;
  today_compact : string;
  (** [re.compile(pat)]: the search predicate of the pattern, or [re.error] *)
  re_compile : string -> result (string -> bool)
}.

(** The provider object and the calls made so far. *)
Record World := {
  connected : bool;
  enable_cache : bool;
  cache_manager : bool;
  history : list call
}.

(** ** Computations: state, exceptions, [try]/[except] *)

Definition M (A : Type) : Type := World -> result A * World.

Definition ret {A} (a : A) : M A := fun w => (Ok a, w).

Definition raise {A} (e : exn) : M A := fun w => (Raise e, w).

Definition bind {A B} (m : M A) (k : A -> M B) : M B :=
  fun w =>
    match m w with
    | (Ok a, w') => k a w'
    | (Raise e, w') => (Raise e, w')
    end.

Notation "'let*' x ':=' m 'in' k" := (bind m (fun x => k))
  (at level 10, x name, m at level 100, k at level 200).

(** [try: m  except Exception as e: handler e] *)
Definition try_except_as {A} (m : M A) (handler : exn -> M A) : M A :=
  fun w =>
    match m w with
    | (Ok a, w') => (Ok a, w')
    | (Raise e, w') => handler e w'
    end.

(** [try: m  except Exception: handler] *)
Definition try_except {A} (m : M A) (handler : M A) : M A :=
  try_except_as m (fun _ => handler).

(** A pure step that may raise. *)
Definition lift {A} (r : result A) : M A := fun w => (r, w).

Definition get_connected : M bool := fun w => (Ok (connected w), w).

Definition set_connected (b : bool) : M unit :=
  fun w => (Ok tt, {| connected := b; enable_cache := enable_cache w;
                     cache_manager := cache_manager w; history := history w |}).

Definition get_enable_cache : M bool := fun w => (Ok (enable_cache w), w).

Definition get_cache_manager : M bool := fun w => (Ok (cache_manager w), w).

(** An outgoing call: the collaborator answers from the history, and the
    call is appended to it. *)
Definition perform {A} (c : call) (answer : list call -> result A) : M A :=
  fun w => (answer (history w),
            {| connected := connected w; enable_cache := enable_cache w;
               cache_manager := cache_manager w;
               history := history w ++ [c] |}).

Section Adapter.

Variable env : Env.

(** A use of the global [w]: the name is unbound when the import failed. *)
Definition vendor {A} (c : call) (answer : list call -> result A) : M A :=
  if WIND_AVAILABLE env then perform c answer else raise NameError.

(** A method of [self.cache_manager], which is [None] unless [__init__]
    obtained one. *)
Definition cache {A} (c : call) (answer : list call -> result A) : M A :=
  let* present := get_cache_manager in
  if present then perform c answer else raise AttributeError.

(** *** Connection management *)

(** [WindProvider._connect_if_needed] *)
Definition _connect_if_needed : M bool :=
  let* is_connected := get_connected in
  if is_connected then ret true
  else if negb (WIND_AVAILABLE env) then ret false
  else
    try_except
      (let* live :=
         (if w_has_isconnected env
          then perform IsConnected (w_isconnected env)
          else ret false) in
       if live then
         let* _ := set_connected true in ret true
       else
         let* start_result := perform Start (w_start env) in
         if (start_result =? 0)%Z then
           let* _ := set_connected true in ret true
         else ret false)
      (ret false).

(** [WindProvider._ensure_connection] *)
Definition _ensure_connection : M bool :=
  let* is_connected := get_connected in
  if negb is_connected then _connect_if_needed
  else
    try_except
      (if WIND_AVAILABLE env then
         let* dropped :=
           (if w_has_isconnected env
            then let* live := perform IsConnected (w_isconnected env) in
                 ret (negb live)
            else ret false) in
         if dropped then
           let* _ := set_connected false in _connect_if_needed
         else ret true
       else ret true)
      (let* _ := set_connected false in _connect_if_needed).

(** [WindProvider.disconnect] *)
Definition disconnect : M unit :=
  let* is_connected := get_connected in
  if is_connected && WIND_AVAILABLE env then
    try_except
      (let* _ := perform Stop (w_stop env) in set_connected false)
      (ret tt)
  else ret tt.

(** [WindProvider.__init__] *)
Definition __init__ (want_cache : bool) : World :=
  let enabled := want_cache && CACHE_AVAILABLE env in
  let self :=
    if enabled then
      match get_cache env with
      | Ok _ => {| connected := false; enable_cache := true;
                   cache_manager := true; history := [] |}
      | Raise _ => {| connected := false; enable_cache := false;
                      cache_manager := false; history := [] |}
      end
    else {| connected := false; enable_cache := false;
            cache_manager := false; history := [] |} in
  snd (_connect_if_needed self).

(** *** Symbol list *)

(** [cache_key] as a condition: [None] and the empty string are false. *)
Definition truthy_key (cache_key : option string) : option string :=
  match cache_key with
  | Some "" => None
  | other => other
  end.

(** Whether [s.strip()] is empty: [s] consists of white space only.  The
    white-space characters of Python are matched in their UTF-8 form. *)
Definition space1 (a : N) : bool :=
  ((9 <=? a) && (a <=? 13) || (28 <=? a) && (a <=? 32))%N.

Definition space2 (a b : N) : bool :=
  ((a =? 194) && ((b =? 133) || (b =? 160)))%N.

Definition space3 (a b c : N) : bool :=
  ((a =? 225) && (b =? 154) && (c =? 128)
   || (a =? 226) && (b =? 128)
      && ((128 <=? c) && (c <=? 138) || (c =? 168) || (c =? 169) || (c =? 175))
   || (a =? 226) && (b =? 129) && (c =? 159)
   || (a =? 227) && (b =? 128) && (c =? 128))%N.

Fixpoint all_space (s : string) : bool :=
  match s with
  | "" => true
  | String a s1 =>
      if space1 (N_of_ascii a) then all_space s1
      else
        match s1 with
        | "" => false
        | String b s2 =>
            if space2 (N_of_ascii a) (N_of_ascii b) then all_space s2
            else
              match s2 with
              | "" => false
              | String c s3 =>
                  if space3 (N_of_ascii a) (N_of_ascii b) (N_of_ascii c)
                  then all_space s3
                  else false
              end
        end
  end.

(** What [get_stock_list] returns: a table, or the text found in the cache. *)
Inductive listing :=
  | Frame (df : Pandas.DataFrame)
  | Text (s : string).

Definition stock_list_mapping : list (string * string) :=
  [("WIND_CODE", "ts_code"); ("SEC_NAME", "name");
   ("TRADE_STATUS", "list_status"); ("IPO_DATE", "list_date");
   ("PROVINCE", "area"); ("SEC_TYPE", "market");
   ("LISTING_BOARD", "industry"); ("EXCHANGE", "exchange")].

(** [for old_col, new_col in column_mapping.items():
       if old_col in df.columns: df[new_col] = df[old_col]] *)
Fixpoint copy_columns (mapping : list (string * string))
    (df : Pandas.DataFrame) : result Pandas.DataFrame :=
  match mapping with
  | [] => Ok df
  | (old_col, new_col) :: rest =>
      if Pandas.has_column old_col df then
        match Pandas.getitem old_col df with
        | Ok vals => copy_columns rest (Pandas.setitem new_col vals df)
        | Raise e => Raise e
        end
      else copy_columns rest df
  end.

(** The cache look-up at the head of [get_stock_list]. *)
Definition cached_stock_list : M (option listing) :=
  let* enabled := get_enable_cache in
  if enabled then
    let* cache_key :=
      cache (CacheFind "wind_stock_list" 24)
            (fun h => find_cached_stock_data env h "wind_stock_list" 24%Z) in
    match truthy_key cache_key with
    | Some key =>
        let* cached_data := cache (CacheLoad key)
                                  (fun h => load_stock_data env h key) in
        match cached_data with
        | CachedFrame df =>
            if negb (Pandas.empty df) then ret (Some (Frame df)) else ret None
        | CachedText s =>
            if negb (all_space s) then ret (Some (Text s)) else ret None
        | CachedNone | CachedOther => ret None
        end
    | None => ret None
    end
  else ret None.

(** The guarded [save_stock_data] after a successful fetch. *)
Definition save_to_cache (symbol : string) (data : Pandas.DataFrame) : M unit :=
  let* enabled := get_enable_cache in
  let* present := get_cache_manager in
  if enabled && present then
    try_except
      (let* _ := perform (CacheSave symbol data "wind")
                         (fun h => save_stock_data env h symbol data "wind") in
       ret tt)
      (ret tt)
  else ret tt.

Definition wset_table : string := "listedsecuritygeneralview".
Definition wset_options : string :=
  "sectorid=a001010100000000;field=wind_code,sec_name,trade_status,ipo_date,province,sec_type,listing_board,exchange".

(** [WindProvider.get_stock_list] *)
Definition get_stock_list : M listing :=
  let* ok := _ensure_connection in
  if negb ok then ret (Frame Pandas.empty_frame)
  else
    try_except
      (let* hit := cached_stock_list in
       match hit with
       | Some found => ret found
       | None =>
           let* wind_data :=
             vendor (Wset wset_table wset_options)
                    (fun h => w_wset env h wset_table wset_options) in
           if negb (ErrorCode wind_data =? 0)%Z then ret (Frame Pandas.empty_frame)
           else
             let* stock_list :=
               lift (Pandas.set_columns (Fields wind_data)
                                        (Pandas.transposed (Data wind_data))) in
             if negb (Pandas.empty stock_list) then
               let* stock_list := lift (copy_columns stock_list_mapping stock_list) in
               let* stock_list :=
                 (if Pandas.has_column "ts_code" stock_list then
                    let* codes := lift (Pandas.getitem "ts_code" stock_list) in
                    let* codes := lift (Pandas.str_accessor codes) in
                    ret (Pandas.setitem "symbol" (Pandas.str_split_first codes)
                                        stock_list)
                  else ret stock_list) in
               let* _ := save_to_cache "wind_stock_list" stock_list in
               ret (Frame stock_list)
             else ret (Frame Pandas.empty_frame)
       end)
      (ret (Frame Pandas.empty_frame)).

(** *** Daily bars *)

Definition daily_mapping : list (string * string) :=
  [("OPEN", "open"); ("HIGH", "high"); ("LOW", "low"); ("CLOSE", "close");
   ("PRE_CLOSE", "pre_close"); ("CHG", "change"); ("PCT_CHG", "pct_chg");
   ("VOLUME", "vol"); ("AMT", "amount")].

Definition daily_fields : string :=
  "open,high,low,close,pre_close,chg,pct_chg,volume,amt".
Definition daily_options : string := "unit=1;Fill=Previous".

(** The reshaping of a daily-bars payload, from [pd.DataFrame(Data).T] to
    [reset_index]. *)
Definition reshape_daily (wind_code : string) (wind_data : WindData)
  : result Pandas.DataFrame :=
  match Pandas.set_columns (Fields wind_data)
                           (Pandas.transposed (Data wind_data)) with
  | Raise e => Raise e
  | Ok data =>
      match Pandas.set_index (Times wind_data) data with
      | Raise e => Raise e
      | Ok data =>
          let data := Pandas.set_index_name "trade_date" data in
          match copy_columns daily_mapping data with
          | Raise e => Raise e
          | Ok data =>
              let data := Pandas.setitem_scalar "ts_code" (VStr wind_code) data in
              Pandas.reset_index data
          end
      end
  end.

(** [len(wind_data.Data) > 0] under [wind_data.Data is not None] *)
Definition has_payload (wind_data : WindData) : bool :=
  match Data wind_data with
  | Some series => (0 <? length series)%nat
  | None => false
  end.

(** [WindProvider.get_stock_daily] *)
Definition get_stock_daily (symbol : arg) (start_date end_date : option string)
  : M Pandas.DataFrame :=
  let* ok := _ensure_connection in
  if negb ok then ret Pandas.empty_frame
  else
    try_except
      (let* wind_code := lift (_normalize_symbol symbol) in
       let end_date := default (today env) end_date in
       let start_date := default (year_ago env) start_date in
       let* wind_data :=
         try_except_as
           (vendor (Wsd wind_code daily_fields start_date end_date daily_options)
                   (fun h => w_wsd env h wind_code daily_fields start_date
                                   end_date daily_options))
           (fun api_error => raise api_error) in
       if negb (ErrorCode wind_data =? 0)%Z then ret Pandas.empty_frame
       else if has_payload wind_data then
         let* data := lift (reshape_daily wind_code wind_data) in
         let* _ := save_to_cache (py_format symbol) data in
         ret data
       else ret Pandas.empty_frame)
      (ret Pandas.empty_frame).

(** *** Company metadata *)

Definition info_fields : string :=
  "trade_code,sec_name,province,wicsname2024,mkt,ipo_date".

Definition unknown : pyval := VStr "未知".

(** [f'股票{symbol}'] *)
Definition stock_label (symbol : arg) : pyval :=
  VStr ("股票" +:+ py_format symbol).

(** [{'symbol': symbol, 'name': f'股票{symbol}', 'source': source}] *)
Definition default_info (symbol : arg) (source : string) : gmap string pyval :=
  <["symbol" := arg_value symbol]>
    (<["name" := stock_label symbol]>
       (<["source" := VStr source]> ∅)).

(** The mapping built from the first row of the answer. *)
Definition info_of_row (symbol : arg) (row : list (string * pyval))
  : gmap string pyval :=
  <["symbol" := arg_value symbol]>
    (<["code" := Pandas.series_get "TRADE_CODE" (arg_value symbol) row]>
       (<["name" := Pandas.series_get "SEC_NAME" (stock_label symbol) row]>
          (<["area" := Pandas.series_get "PROVINCE" unknown row]>
             (<["industry" := Pandas.series_get "WICSNAME2024" unknown row]>
                (<["market" := Pandas.series_get "MKT" unknown row]>
                   (<["list_date" := Pandas.series_get "IPO_DATE" unknown row]>
                      (<["source" := VStr "wind"]> ∅))))))).

(** [WindProvider.get_stock_info] *)
Definition get_stock_info (symbol : arg) : M (gmap string pyval) :=
  let* ok := _ensure_connection in
  if negb ok then ret (default_info symbol "wind_error")
  else
    try_except
      (let* wind_code := lift (_normalize_symbol symbol) in
       let* wind_data :=
         vendor (Wsd wind_code info_fields "2024-01-01" "2024-01-02" "")
                (fun h => w_wsd env h wind_code info_fields
                                "2024-01-01" "2024-01-02" "") in
       if (ErrorCode wind_data =? 0)%Z && bool_decide (is_Some (Data wind_data))
       then
         let* df := lift (Pandas.set_columns (Fields wind_data)
                                             (Pandas.transposed (Data wind_data))) in
         if negb (Pandas.empty df)
         then ret (info_of_row symbol (Pandas.iloc0 df))
         else ret (default_info symbol "wind")
       else ret (default_info symbol "wind"))
      (ret (default_info symbol "wind_error")).

(** *** Financial statements *)

Definition balance_fields : string :=
  "trade_code,wicsname2024,tot_assets,tot_liab,wgsd_stkhldrs_eq".
Definition income_fields : string :=
  "trade_code,wicsname2024,tot_oper_rev,tot_oper_cost,opprofit,tot_profit,net_profit_is".
Definition cashflow_fields : string :=
  "trade_code,wicsname2024,net_profit_cs,fin_exp_cs,cash_recp_sg_and_rs,cash_pay_goods_purch_serv_rec".

Definition wss_options (current_date period : string) : string :=
  "tradeDate=" +:+ current_date +:+ ";industryType=2;unit=1;rptDate="
  +:+ period +:+ ";rptType=1;ShowBlank=0".

(** One statement block of [get_financial_data]; the three blocks differ
    only in the key they fill and the fields they ask for:
    [try:
       sheet = w.wss(...)
       if sheet.ErrorCode == 0 and sheet.Data is not None:
         df = pd.DataFrame(sheet.Data).T; df.columns = sheet.Fields
         financials[key] = df.to_dict('records')
       else: financials[key] = []
     except Exception: financials[key] = []] *)
Definition fetch_statement (key fields wind_code options : string)
    (financials : gmap string (list (gmap string pyval)))
  : M (gmap string (list (gmap string pyval))) :=
  try_except
    (let* sheet := vendor (Wss wind_code fields options)
                          (fun h => w_wss env h wind_code fields options) in
     if (ErrorCode sheet =? 0)%Z && bool_decide (is_Some (Data sheet)) then
       let* df := lift (Pandas.set_columns (Fields sheet)
                                           (Pandas.transposed (Data sheet))) in
       ret (<[key := Pandas.to_dict_records df]> financials)
     else ret (<[key := []]> financials))
    (ret (<[key := []]> financials)).

(** [WindProvider.get_financial_data] *)
Definition get_financial_data (symbol : arg) (period : string)
  : M (gmap string (list (gmap string pyval))) :=
  let* ok := _ensure_connection in
  if negb ok then ret ∅
  else
    try_except
      (let financials := ∅ in
       let* wind_code := lift (_normalize_symbol symbol) in
       let options := wss_options (today_compact env) period in
       let* financials :=
         fetch_statement "balance_sheet" balance_fields wind_code options
                         financials in
       let* financials :=
         fetch_statement "income_statement" income_fields wind_code options
                         financials in
       let* financials :=
         fetch_statement "cash_flow" cashflow_fields wind_code options
                         financials in
       ret financials)
      (ret ∅).

(** *** Keyword search *)

(** [stock_list[col].str.contains(keyword, na=False)]: pandas compiles the
    keyword as a regular expression. *)
Definition column_contains (keyword col : string) (stock_list : Pandas.DataFrame)
  : M (list bool) :=
  let* cells := lift (Pandas.getitem col stock_list) in
  let* cells := lift (Pandas.str_accessor cells) in
  let* matcher := lift (re_compile env keyword) in
  ret (Pandas.str_contains matcher cells).

(** [WindProvider.search_stocks] *)
Definition search_stocks (keyword : string) : M Pandas.DataFrame :=
  let* ok := _ensure_connection in
  if negb ok then ret Pandas.empty_frame
  else
    try_except
      (let* stock_list := get_stock_list in
       match stock_list with
       | Text _ => raise AttributeError
       | Frame stock_list =>
           if Pandas.empty stock_list then ret Pandas.empty_frame
           else
             let* by_name := column_contains keyword "name" stock_list in
             let* by_symbol := column_contains keyword "symbol" stock_list in
             let* by_code := column_contains keyword "ts_code" stock_list in
             let mask := Pandas.mask_or (Pandas.mask_or by_name by_symbol) by_code in
             ret (Pandas.filter_rows mask stock_list)
       end)
      (ret Pandas.empty_frame).

End Adapter.

(** *** The rest of the module *)

(** [WindProvider.__del__] *)
Definition __del__ (env : Env) : M unit := disconnect env.

(** The global [_wind_provider]: [None] until the first access, then the one
    provider of the process. *)
Definition Global : Type := option World.

(** [get_wind_provider]: the provider is constructed, with the cache asked
    for, on the first access only. *)
Definition get_wind_provider (env : Env) (g : Global) : World :=
  match g with
  | None => __init__ env true
  | Some provider => provider
  end.

(** [get_china_stock_data_wind]: the operation runs on the shared provider,
    which the global keeps with the state the operation left. *)
Definition get_china_stock_data_wind (env : Env) (symbol : arg)
    (start_date end_date : option string) (g : Global)
  : result Pandas.DataFrame * Global :=
  let provider := get_wind_provider env g in
  let out := get_stock_daily env symbol start_date end_date provider in
  (fst out, Some (snd out)).

(** [get_china_stock_info_wind] *)
Definition get_china_stock_info_wind (env : Env) (symbol : arg) (g : Global)
  : result (gmap string pyval) * Global :=
  let provider := get_wind_provider env g in
  let out := get_stock_info env symbol provider in
  (fst out, Some (snd out)).

(** ** Vocabulary of the statements *)

(** The first character of a string, if any. *)
Definition leading (s : string) : option ascii :=
  match s with
  | "" => None
  | String c _ => Some c
  end.

(** No lowercase market prefix occurs anywhere in [s]. *)
Definition prefix_free (s : string) : bool :=
  negb (PyStr.occurs "sh." s) && negb (PyStr.occurs "sz." s).

(** The answer a vendor query gives the adapter after the calls [h]: the
    name [w] is unbound when the import failed. *)
Definition wss_answer (env : Env) (h : list call)
    (codes fields options : string) : result WindData :=
  if WIND_AVAILABLE env then w_wss env h codes fields options
  else Raise NameError.

Definition wsd_answer (env : Env) (h : list call)
    (codes fields beginTime endTime options : string) : result WindData :=
  if WIND_AVAILABLE env then w_wsd env h codes fields beginTime endTime options
  else Raise NameError.

(** The field names fit the payload: [df.columns = Fields] does not raise. *)
Definition reshaped (sheet : WindData) : result Pandas.DataFrame :=
  Pandas.set_columns (Fields sheet) (Pandas.transposed (Data sheet)).

(** A query failed: it raised, returned a non-zero status or no data, or
    its payload did not take the field names. *)
Definition failed (answer : result WindData) : Prop :=
  match answer with
  | Raise _ => True
  | Ok sheet =>
      ErrorCode sheet <> 0%Z \/ Data sheet = None
      \/ exists e, reshaped sheet = Raise e
  end.

(** A query succeeded with the table [df]. *)
Definition succeeded (answer : result WindData) (df : Pandas.DataFrame) : Prop :=
  exists sheet,
    answer = Ok sheet /\ ErrorCode sheet = 0%Z /\ Data sheet <> None
    /\ reshaped sheet = Ok df.


(** The row mappings a statement query leaves in the snapshot. *)
Definition statement_rows (answer : result WindData)
  : list (gmap string pyval) :=
  match answer with
  | Ok sheet =>
      if (ErrorCode sheet =? 0)%Z && bool_decide (is_Some (Data sheet)) then
        match reshaped sheet with
        | Ok df => Pandas.to_dict_records df
        | Raise _ => []
        end
      else []
  | Raise _ => []
  end.

(** The world after a use of [w]. *)
Definition after_vendor (env : Env) (c : call) (w : World) : World :=
  if WIND_AVAILABLE env
  then {| connected := connected w; enable_cache := enable_cache w;
          cache_manager := cache_manager w; history := history w ++ [c] |}
  else w.

(** A computation makes no remote data call. *)
Definition quiet {A} (m : M A) : Prop :=
  forall w, data_calls (history (snd (m w))) = data_calls (history w).

(** A computation never raises. *)
Definition safe {A} (m : M A) : Prop :=
  forall w, exists a, fst (m w) = Ok a.

(** ** Example environments *)

(** The regular-expression engine on the patterns of the examples: a
    pattern that starts with a repetition operator is rejected (nothing to
    repeat), a pattern of ordinary characters is searched for as it is.
    Patterns with other operators do not occur in the examples. *)
Definition re_compile_plain (pat : string) : result (string -> bool) :=
  match leading pat with
  | Some c =>
      if Ascii.eqb c "*" || Ascii.eqb c "+" || Ascii.eqb c "?"
      then Raise ReError
      else Ok (PyStr.occurs pat)
  | None => Ok (PyStr.occurs pat)
  end.

Definition no_data (code : Z) : WindData :=
  {| ErrorCode := code; Data := None; Fields := []; Times := [] |}.

Definition listing_payload : WindData :=
  {| ErrorCode := 0;
     Data := Some [[VStr "000001.SZ"; VStr "600401.SH"];
                   [VStr "平安银行"; VStr "*ST海润"];
                   [VStr "交易"; VStr "交易"];
                   [VObj "1991-04-03"; VObj "2003-02-12"];
                   [VStr "广东省"; VStr "江苏省"];
                   [VStr "A股"; VStr "A股"];
                   [VStr "主板"; VStr "主板"];
                   [VStr "深圳"; VStr "上海"]];
     Fields := ["WIND_CODE"; "SEC_NAME"; "TRADE_STATUS"; "IPO_DATE";
                "PROVINCE"; "SEC_TYPE"; "LISTING_BOARD"; "EXCHANGE"];
     Times := [] |}.

Definition daily_series : list (list pyval) :=
  [[VObj "9.39"; VObj "9.19"]; [VObj "9.42"; VObj "9.22"];
   [VObj "9.21"; VObj "9.15"]; [VObj "9.21"; VObj "9.20"];
   [VObj "9.39"; VObj "9.21"]; [VObj "-0.18"; VObj "-0.01"];
   [VObj "-1.92"; VObj "-0.11"];
   [VObj "115836600"; VObj "73312000"];
   [VObj "1075742000"; VObj "673673600"]].

Definition daily_payload : WindData :=
  {| ErrorCode := 0;
     Data := Some daily_series;
     Fields := ["OPEN"; "HIGH"; "LOW"; "CLOSE"; "PRE_CLOSE"; "CHG"; "PCT_CHG";
                "VOLUME"; "AMT"];
     Times := [VObj "2024-01-02"; VObj "2024-01-03"] |}.

Definition balance_payload : WindData :=
  {| ErrorCode := 0;
     Data := Some [[VStr "600000"]; [VStr "银行"]; [VObj "9.0e12"];
                   [VObj "8.3e12"]; [VObj "7.0e11"]];
     Fields := ["TRADE_CODE"; "WICSNAME2024"; "TOT_ASSETS"; "TOT_LIAB";
                "WGSD_STKHLDRS_EQ"];
     Times := [VObj "2024-03-01"] |}.

Definition cashflow_payload : WindData :=
  {| ErrorCode := 0;
     Data := Some [[VStr "600000"]; [VStr "银行"]; [VObj "3.7e10"];
                   [VObj "0.0"]; [VObj "1.2e11"]; [VObj "4.5e10"]];
     Fields := ["TRADE_CODE"; "WICSNAME2024"; "NET_PROFIT_CS"; "FIN_EXP_CS";
                "CASH_RECP_SG_AND_RS"; "CASH_PAY_GOODS_PURCH_SERV_REC"];
     Times := [VObj "2024-03-01"] |}.

(** A terminal that is up.  It serves the symbol list, daily bars, the
    balance sheet and the cash-flow statement, answers the income statement
    and the company metadata with an error status, and has no cache. *)
Definition terminal : Env :=
  {| WIND_AVAILABLE := true;
     CACHE_AVAILABLE := false;
     get_cache := Raise ExternalError;
     w_has_isconnected := true;
     w_isconnected := fun _ => Ok true;
     w_start := fun _ => Ok 0%Z;
     w_stop := fun _ => Ok tt;
     w_wset := fun _ _ _ => Ok listing_payload;
     w_wsd := fun _ _ fields _ _ _ =>
       if String.eqb fields daily_fields then Ok daily_payload
       else Ok (no_data (-40520007));
     w_wss := fun _ _ fields _ =>
       if String.eqb fields balance_fields then Ok balance_payload
       else if String.eqb fields cashflow_fields then Ok cashflow_payload
       else Ok (no_data (-40522017));
     find_cached_stock_data := fun _ _ _ => Ok None;
     load_stock_data := fun _ _ => Ok CachedNone;
     save_stock_data := fun _ _ _ _ => Raise ExternalError;
     today := "2024-03-01";
     year_ago := "2023-03-02";
     today_compact := "20240301";
     re_compile := re_compile_plain |}.

(** The same machine without the vendor client: the import of WindPy
    failed. *)
Definition no_terminal : Env :=
  {| WIND_AVAILABLE := false;
     CACHE_AVAILABLE := CACHE_AVAILABLE terminal;
     get_cache := get_cache terminal;
     w_has_isconnected := false;
     w_isconnected := fun _ => Raise NameError;
     w_start := fun _ => Raise NameError;
     w_stop := fun _ => Raise NameError;
     w_wset := fun _ _ _ => Raise NameError;
     w_wsd := fun _ _ _ _ _ _ => Raise NameError;
     w_wss := fun _ _ _ _ => Raise NameError;
     find_cached_stock_data := find_cached_stock_data terminal;
     load_stock_data := load_stock_data terminal;
     save_stock_data := save_stock_data terminal;
     today := today terminal;
     year_ago := year_ago terminal;
     today_compact := today_compact terminal;
     re_compile := re_compile terminal |}.

(** The provider right after construction, on either machine. *)
Definition online : World := __init__ terminal true.
Definition offline : World := __init__ no_terminal true.

(** The provider on the live machine after a connection check. *)
Definition checked : World := snd (_ensure_connection terminal online).

(** ** Vocabulary of the further properties *)

(** A relation between the state before and after holds for every run. *)
Definition stays {A} (R : World -> World -> Prop) (m : M A) : Prop :=
  forall w, R w (snd (m w)).

(** The provider object is as it was; only calls were made. *)
Definition same_self (w w' : World) : Prop :=
  connected w' = connected w
  /\ enable_cache w' = enable_cache w
  /\ cache_manager w' = cache_manager w.

(** The calls made are all of the kind [P]. *)
Definition extends (P : call -> Prop) (w w' : World) : Prop :=
  exists calls, history w' = (history w ++ calls)%list /\ Forall P calls.

(** The invariant of the provider survives. *)
Definition keeps_sound (sound : World -> Prop) (w w' : World) : Prop :=
  sound w -> sound w'.

(** A call of the connection check. *)
Definition connection_call (c : call) : Prop := c = IsConnected \/ c = Start.

(** A vendor query that names a symbol names it with its market. *)
Definition qualified_call (c : call) : Prop :=
  match c with
  | Wsd codes _ _ _ _ | Wss codes _ _ => contains_dot codes = true
  | _ => True
  end.

(** What holds of the provider between operations: it is marked connected
    only where the vendor client was imported, and it has a cache manager
    exactly when the cache is enabled. *)
Definition sound (env : Env) (w : World) : Prop :=
  (connected w = true -> WIND_AVAILABLE env = true)
  /\ enable_cache w = cache_manager w.

Definition is_ok {A} (r : result A) : bool :=
  match r with
  | Ok _ => true
  | Raise _ => false
  end.

(** The environment with another [save_stock_data]. *)
Definition with_save (env : Env)
    (save : list call -> string -> Pandas.DataFrame -> string -> result string)
  : Env :=
  {| WIND_AVAILABLE := WIND_AVAILABLE env;
     CACHE_AVAILABLE := CACHE_AVAILABLE env;
     get_cache := get_cache env;
     w_has_isconnected := w_has_isconnected env;
     w_isconnected := w_isconnected env;
     w_start := w_start env;
     w_stop := w_stop env;
     w_wset := w_wset env;
     w_wsd := w_wsd env;
     w_wss := w_wss env;
     find_cached_stock_data := find_cached_stock_data env;
     load_stock_data := load_stock_data env;
     save_stock_data := save;
     today := today env;
     year_ago := year_ago env;
     today_compact := today_compact env;
     re_compile := re_compile env |}.

(** The state with one more call made. *)
Definition called (c : call) (w : World) : World :=
  {| connected := connected w; enable_cache := enable_cache w;
     cache_manager := cache_manager w; history := history w ++ [c] |}.

(** The answer of [w.wset] as the adapter sees it. *)
Definition wset_answer (env : Env) (h : list call) : result WindData :=
  if WIND_AVAILABLE env then w_wset env h wset_table wset_options
  else Raise NameError.

(** Whether a cell matches the compiled keyword. *)
Definition cell_matches (matcher : string -> bool) (v : pyval) : bool :=
  match v with
  | VStr s => matcher s
  | _ => false
  end.

(** The fields of the company mapping: key, vendor field, placeholder. *)
Definition info_table (symbol : arg) : list (string * string * pyval) :=
  [("code", "TRADE_CODE", arg_value symbol);
   ("name", "SEC_NAME", stock_label symbol);
   ("area", "PROVINCE", unknown);
   ("industry", "WICSNAME2024", unknown);
   ("market", "MKT", unknown);
   ("list_date", "IPO_DATE", unknown)].

(** A machine with a terminal and a cache that holds the symbol list. *)
Definition cached_listing : Pandas.DataFrame :=
  {| Pandas.index_name := None;
     Pandas.index := Pandas.range_index 1;
     Pandas.columns := [("ts_code", [VStr "000001.SZ"]);
                        ("name", [VStr "平安银行"]);
                        ("symbol", [VStr "000001"])] |}.

Definition cached_terminal : Env :=
  {| WIND_AVAILABLE := true;
     CACHE_AVAILABLE := true;
     get_cache := Ok tt;
     w_has_isconnected := true;
     w_isconnected := fun _ => Ok true;
     w_start := fun _ => Ok 0%Z;
     w_stop := fun _ => Ok tt;
     w_wset := w_wset terminal;
     w_wsd := w_wsd terminal;
     w_wss := w_wss terminal;
     find_cached_stock_data := fun _ _ _ => Ok (Some "wind_stock_list_wind");
     load_stock_data := fun _ _ => Ok (CachedFrame cached_listing);
     save_stock_data := fun _ _ _ _ => Ok "saved";
     today := today terminal;
     year_ago := year_ago terminal;
     today_compact := today_compact terminal;
     re_compile := re_compile terminal |}.

(** The same machine when the cache holds the list as text. *)
Definition text_terminal : Env :=
  {| WIND_AVAILABLE := true;
     CACHE_AVAILABLE := true;
     get_cache := Ok tt;
     w_has_isconnected := true;
     w_isconnected := fun _ => Ok true;
     w_start := fun _ => Ok 0%Z;
     w_stop := fun _ => Ok tt;
     w_wset := w_wset terminal;
     w_wsd := w_wsd terminal;
     w_wss := w_wss terminal;
     find_cached_stock_data := fun _ _ _ => Ok (Some "wind_stock_list_wind");
     load_stock_data := fun _ _ => Ok (CachedText "000001.SZ,平安银行");
     save_stock_data := fun _ _ _ _ => Ok "saved";
     today := today terminal;
     year_ago := year_ago terminal;
     today_compact := today_compact terminal;
     re_compile := re_compile terminal |}.

(** A terminal that answers the company query, without the province. *)
Definition info_payload : WindData :=
  {| ErrorCode := 0;
     Data := Some [[VStr "000001"]; [VStr "平安银行"]; [VStr "银行"];
                   [VStr "深圳"]; [VObj "1991-04-03"]];
     Fields := ["TRADE_CODE"; "SEC_NAME"; "WICSNAME2024"; "MKT"; "IPO_DATE"];
     Times := [VObj "2024-01-02"] |}.

Definition info_terminal : Env :=
  {| WIND_AVAILABLE := true;
     CACHE_AVAILABLE := false;
     get_cache := Raise ExternalError;
     w_has_isconnected := true;
     w_isconnected := fun _ => Ok true;
     w_start := fun _ => Ok 0%Z;
     w_stop := fun _ => Ok tt;
     w_wset := w_wset terminal;
     w_wsd := fun _ _ fields _ _ _ =>
       if String.eqb fields info_fields then Ok info_payload
       else Ok daily_payload;
     w_wss := w_wss terminal;
     find_cached_stock_data := find_cached_stock_data terminal;
     load_stock_data := load_stock_data terminal;
     save_stock_data := save_stock_data terminal;
     today := today terminal;
     year_ago := year_ago terminal;
     today_compact := today_compact terminal;
     re_compile := re_compile terminal |}.

(** A terminal that answers the symbol-list query with an error status. *)
Definition refusing_terminal : Env :=
  {| WIND_AVAILABLE := true;
     CACHE_AVAILABLE := false;
     get_cache := Raise ExternalError;
     w_has_isconnected := true;
     w_isconnected := fun _ => Ok true;
     w_start := fun _ => Ok 0%Z;
     w_stop := fun _ => Ok tt;
     w_wset := fun _ _ _ => Ok (no_data (-40520007));
     w_wsd := w_wsd terminal;
     w_wss := w_wss terminal;
     find_cached_stock_data := find_cached_stock_data terminal;
     load_stock_data := load_stock_data terminal;
     save_stock_data := save_stock_data terminal;
     today := today terminal;
     year_ago := year_ago terminal;
     today_compact := today_compact terminal;
     re_compile := re_compile terminal |}.

(** A terminal whose session has dropped and comes back on [w.start]. *)
Definition dropped_terminal : Env :=
  {| WIND_AVAILABLE := true;
     CACHE_AVAILABLE := false;
     get_cache := Raise ExternalError;
     w_has_isconnected := true;
     w_isconnected := fun _ => Ok false;
     w_start := fun _ => Ok 0%Z;
     w_stop := fun _ => Raise ExternalError;
     w_wset := w_wset terminal;
     w_wsd := w_wsd terminal;
     w_wss := w_wss terminal;
     find_cached_stock_data := find_cached_stock_data terminal;
     load_stock_data := load_stock_data terminal;
     save_stock_data := save_stock_data terminal;
     today := today terminal;
     year_ago := year_ago terminal;
     today_compact := today_compact terminal;
     re_compile := re_compile terminal |}.

(** * Properties of symbol normalisation *)

Section StringFacts.

Import PyStr.

Lemma append_nil t : "" +:+ t = t.
Proof. reflexivity. Qed.

Lemma append_cons c s t : String c s +:+ t = String c (s +:+ t).
Proof. reflexivity. Qed.

Lemma occurs_cons p c s :
  occurs p (String c s) = startswith p (String c s) || occurs p s.
Proof. reflexivity. Qed.

Lemma replace_scan_absent old new s :
  occurs old s = false -> replace_scan old new 0 s = s.
Proof.
  induction s as [|c s IH]; [reflexivity|].
  rewrite occurs_cons. intros H.
  apply orb_false_iff in H as [Hhere Hlater].
  cbn [replace_scan]. rewrite Hhere. f_equal. auto.
Qed.

Lemma replace_absent a old new s :
  occurs (String a old) s = false -> replace (String a old) new s = s.
Proof. apply replace_scan_absent. Qed.

Lemma strip_prefixes_prefix_free s :
  prefix_free s = true -> strip_prefixes s = s.
Proof.
  unfold prefix_free, strip_prefixes. intros H.
  apply andb_true_iff in H as [Hsh Hsz].
  apply negb_true_iff in Hsh, Hsz.
  rewrite (replace_absent _ _ _ _ Hsh). apply (replace_absent _ _ _ _ Hsz).
Qed.

(** A three-character pattern ending in a dot needs a dot in the text. *)
Lemma dotted_pattern_absent a b s :
  contains_dot s = false -> occurs (String a (String b ".")) s = false.
Proof.
  unfold contains_dot.
  induction s as [|c s IH]; [reflexivity|].
  rewrite !occurs_cons. intros H.
  apply orb_false_iff in H as [Hhere Hlater].
  rewrite (IH Hlater), orb_false_r.
  destruct s as [|d [|e r]]; cbn; rewrite ?andb_false_r; try reflexivity.
  rewrite !occurs_cons in Hlater.
  apply orb_false_iff in Hlater as [_ Hlater].
  apply orb_false_iff in Hlater as [He _].
  cbn in He. rewrite andb_true_r in He. rewrite He.
  now rewrite !andb_false_r.
Qed.

Lemma dot_free_prefix_free s : contains_dot s = false -> prefix_free s = true.
Proof.
  intros H. unfold prefix_free.
  now rewrite !dotted_pattern_absent.
Qed.

Lemma occurs_dot_suffix s r : occurs "." (s +:+ String "." r) = true.
Proof.
  induction s as [|c s IH].
  - reflexivity.
  - rewrite append_cons, occurs_cons, IH. apply orb_true_r.
Qed.

Lemma normalize_symbol_has_dot s : contains_dot (normalize_symbol s) = true.
Proof.
  unfold normalize_symbol.
  destruct (contains_dot (strip_prefixes s)) eqn:Hdot; [exact Hdot|].
  unfold contains_dot.
  repeat match goal with
         | |- context [if ?b then _ else _] => destruct b
         end; apply occurs_dot_suffix.
Qed.

(** A dotted symbol without market prefix is returned as it is. *)
Lemma normalize_symbol_fixed s :
  contains_dot s = true -> prefix_free s = true -> normalize_symbol s = s.
Proof.
  intros Hdot Hfree. unfold normalize_symbol.
  rewrite (strip_prefixes_prefix_free _ Hfree), Hdot. reflexivity.
Qed.

(** Removing a pattern never adds an ['s'] ... *)
Lemma count_replace_scan_le old k s :
  count_char "s" (replace_scan old "" k s) <= count_char "s" s.
Proof.
  revert k. induction s as [|c s IH]; intros k; [reflexivity|].
  cbn [replace_scan]. destruct k as [|k].
  - destruct (startswith old (String c s)).
    + rewrite append_nil. cbn [count_char].
      specialize (IH (String.length old - 1)). lia.
    + cbn [count_char]. specialize (IH 0). lia.
  - cbn [count_char]. specialize (IH k). lia.
Qed.

(** ... and removes one when the pattern starts with ['s'] and occurs. *)
Lemma count_replace_scan_lt old s :
  occurs (String "s" old) s = true ->
  count_char "s" (replace_scan (String "s" old) "" 0 s) < count_char "s" s.
Proof.
  induction s as [|c s IH]; [discriminate|].
  rewrite occurs_cons. cbn [replace_scan].
  destruct (startswith (String "s" old) (String c s)) eqn:Hhere.
  - intros _. cbn [startswith] in Hhere.
    apply andb_true_iff in Hhere as [Hc _].
    rewrite append_nil. cbn [count_char]. rewrite Hc.
    pose proof (count_replace_scan_le (String "s" old)
                  (String.length (String "s" old) - 1) s). lia.
  - cbn [orb]. intros Hlater. cbn [count_char]. specialize (IH Hlater). lia.
Qed.

Lemma count_strip_prefixes_le s :
  count_char "s" (strip_prefixes s) <= count_char "s" s.
Proof.
  unfold strip_prefixes, replace.
  etransitivity; apply count_replace_scan_le.
Qed.

Lemma count_strip_prefixes_lt s :
  prefix_free s = false ->
  count_char "s" (strip_prefixes s) < count_char "s" s.
Proof.
  unfold prefix_free. intros H.
  destruct (occurs "sh." s) eqn:Hsh.
  - unfold strip_prefixes, replace.
    eapply Nat.le_lt_trans; [apply count_replace_scan_le|].
    now apply count_replace_scan_lt.
  - cbn in H. apply negb_false_iff in H.
    unfold strip_prefixes. rewrite (replace_absent _ _ _ _ Hsh).
    now apply count_replace_scan_lt.
Qed.

Lemma count_char_app c s t :
  count_char c (s +:+ t) = count_char c s + count_char c t.
Proof.
  induction s as [|d s IH]; [reflexivity|].
  rewrite append_cons. cbn [count_char]. rewrite IH. lia.
Qed.

(** The suffixes hold no ['s'], so normalising counts as stripping. *)
Lemma count_normalize_symbol s :
  count_char "s" (normalize_symbol s) = count_char "s" (strip_prefixes s).
Proof.
  unfold normalize_symbol.
  repeat match goal with
         | |- context [if ?b then _ else _] => destruct b
         end; rewrite ?count_char_app; cbn; lia.
Qed.

Lemma normalize_symbol_fixed_inv s :
  normalize_symbol s = s -> prefix_free s = true.
Proof.
  intros Hfix. destruct (prefix_free s) eqn:Hfree; [reflexivity|].
  pose proof (count_strip_prefixes_lt _ Hfree) as Hlt.
  rewrite <- count_normalize_symbol, Hfix in Hlt. lia.
Qed.

End StringFacts.

(** A leading prefix in front of a symbol without ['.'] is all that the
    stripping removes. *)
Lemma strip_prefixes_leading t :
  contains_dot t = false ->
  strip_prefixes ("sh." +:+ t) = t /\ strip_prefixes ("sz." +:+ t) = t.
Proof.
  intros Hdot.
  pose proof (dotted_pattern_absent "s" "h" t Hdot) as Hsh.
  pose proof (dotted_pattern_absent "s" "z" t Hdot) as Hsz.
  unfold strip_prefixes, PyStr.replace. rewrite !append_cons, !append_nil.
  split.
  - cbn. rewrite (replace_scan_absent _ _ _ Hsh).
    apply (replace_scan_absent _ _ _ Hsz).
  - cbn. rewrite (replace_scan_absent _ _ _ Hsh).
    cbn. apply (replace_scan_absent _ _ _ Hsz).
Qed.

Lemma startswith_char c t :
  PyStr.startswith (String c "") t = true <-> leading t = Some c.
Proof.
  destruct t as [|d r]; cbn; [split; discriminate|].
  rewrite andb_true_r, Ascii.eqb_eq. split; congruence.
Qed.

Lemma startswith_char_false c t :
  leading t <> Some c -> PyStr.startswith (String c "") t = false.
Proof.
  intros H. destruct (PyStr.startswith (String c "") t) eqn:E; [|reflexivity].
  now apply startswith_char in E.
Qed.

(** C2: when the symbol holds no ['.'] once the prefixes are stripped,
    [_normalize_symbol] appends exactly one suffix, chosen by the leading
    character: ['6'] gives [.SH], ['0'] or ['3'] gives [.SZ], ['8'] gives
    [.BJ], anything else (also no character at all) gives [.SZ]; a symbol
    without any ['.'] is not changed by the stripping, and a leading [sh.]
    or [sz.] in front of one is all the stripping removes; and the three
    examples of the specification hold.  The function is a total function
    on strings. *)
Theorem normalize_symbol_bare :
  (forall s,
      contains_dot (strip_prefixes s) = false ->
      let t := strip_prefixes s in
      (leading t = Some "6"%char -> normalize_symbol s = t +:+ ".SH")
      /\ (leading t = Some "0"%char \/ leading t = Some "3"%char ->
          normalize_symbol s = t +:+ ".SZ")
      /\ (leading t = Some "8"%char -> normalize_symbol s = t +:+ ".BJ")
      /\ (leading t <> Some "6"%char -> leading t <> Some "0"%char ->
          leading t <> Some "3"%char -> leading t <> Some "8"%char ->
          normalize_symbol s = t +:+ ".SZ"))
  /\ (forall s, contains_dot s = false -> strip_prefixes s = s)
  /\ (forall t, contains_dot t = false ->
        strip_prefixes ("sh." +:+ t) = t /\ strip_prefixes ("sz." +:+ t) = t)
  /\ normalize_symbol "000001" = "000001.SZ"
  /\ normalize_symbol "600000" = "600000.SH"
  /\ normalize_symbol "830001" = "830001.BJ".
Proof.
  split; [|split; [|split; [exact strip_prefixes_leading | repeat split]]].
  - intros s Hdot. cbv zeta. unfold normalize_symbol. rewrite Hdot.
    set (t := strip_prefixes s). repeat split.
    + intros H6. now rewrite (proj2 (startswith_char _ _) H6).
    + intros H03.
      rewrite startswith_char_false by (destruct H03; congruence).
      destruct H03 as [H|H]; rewrite (proj2 (startswith_char _ _) H);
        [reflexivity | now rewrite orb_true_r].
    + intros H8.
      rewrite !startswith_char_false by congruence.
      now rewrite (proj2 (startswith_char _ _) H8).
    + intros N6 N0 N3 N8. now rewrite !startswith_char_false.
  - intros s Hdot. apply strip_prefixes_prefix_free.
    now apply dot_free_prefix_free.
Qed.

Lemma normalize_symbol_bare_witness :
  normalize_symbol "688001" = "688001" +:+ ".SH".
Proof.
  refine (proj1 (proj1 normalize_symbol_bare "688001" _) _); reflexivity.
Defined.

(** C3, as stated, fails: a prefixed symbol contains a ['.'] and is not
    returned unchanged. *)
Lemma normalize_symbol_dotted_not_identity :
  contains_dot "sz.000001" = true
  /\ normalize_symbol "sz.000001" <> "sz.000001".
Proof. split; [reflexivity | discriminate]. Qed.

(** C3, amended: a symbol that contains a ['.'] and no occurrence of [sh.]
    or [sz.] is returned unchanged. *)
Theorem normalize_symbol_qualified s :
  contains_dot s = true ->
  PyStr.occurs "sh." s = false ->
  PyStr.occurs "sz." s = false ->
  normalize_symbol s = s.
Proof.
  intros Hdot Hsh Hsz. apply normalize_symbol_fixed; [exact Hdot|].
  unfold prefix_free. now rewrite Hsh, Hsz.
Qed.

Lemma normalize_symbol_qualified_witness :
  normalize_symbol "000001.SZ" = "000001.SZ".
Proof. apply (normalize_symbol_qualified "000001.SZ"); reflexivity. Defined.

(** C4: the code at an input where [sh.] occurs inside the symbol and not
    at its start: the occurrence is removed all the same, and what is left
    is classified as a bare code.  A leading prefix is stripped before the
    classification, as the claim says. *)
Theorem normalize_symbol_inner_occurrence :
  PyStr.startswith "sh." "wish.us" = false
  /\ PyStr.startswith "sz." "wish.us" = false
  /\ strip_prefixes "wish.us" = "wius"
  /\ normalize_symbol "wish.us" = "wius.SZ"
  /\ normalize_symbol "sz.000001" = "000001.SZ".
Proof. repeat split. Qed.




(** The condition is the exact one for this code: an output that still holds
    [sh.] or [sz.] is changed by the second application. *)
Lemma normalize_symbol_idempotent_only_if s :
  normalize_symbol (normalize_symbol s) = normalize_symbol s ->
  PyStr.occurs "sh." (normalize_symbol s) = false
  /\ PyStr.occurs "sz." (normalize_symbol s) = false.
Proof.
  intros Hfix. apply normalize_symbol_fixed_inv in Hfix.
  unfold prefix_free in Hfix.
  apply andb_true_iff in Hfix as [Hsh Hsz].
  now apply negb_true_iff in Hsh, Hsz.
Qed.

(** * Properties of the adapter *)

(** ** Computations that make no data call, computations that never raise *)

Section Effects.

Context {A B : Type}.

Lemma quiet_ret (a : A) : quiet (ret a).
Proof. intros w. reflexivity. Qed.

Lemma quiet_raise e : quiet (@raise A e).
Proof. intros w. reflexivity. Qed.

Lemma quiet_lift (r : result A) : quiet (lift r).
Proof. intros w. reflexivity. Qed.

Lemma quiet_bind (m : M A) (k : A -> M B) :
  quiet m -> (forall a, quiet (k a)) -> quiet (bind m k).
Proof.
  intros Hm Hk w. unfold bind. specialize (Hm w).
  destruct (m w) as [[a|e] w1]; cbn in *; [|exact Hm].
  now rewrite Hk.
Qed.

Lemma quiet_try_except_as (m : M A) (handler : exn -> M A) :
  quiet m -> (forall e, quiet (handler e)) -> quiet (try_except_as m handler).
Proof.
  intros Hm Hh w. unfold try_except_as. specialize (Hm w).
  destruct (m w) as [[a|e] w1]; cbn in *; [exact Hm|].
  now rewrite Hh.
Qed.

Lemma quiet_try_except (m handler : M A) :
  quiet m -> quiet handler -> quiet (try_except m handler).
Proof. intros Hm Hh. now apply quiet_try_except_as. Qed.

Lemma quiet_perform (c : call) (answer : list call -> result A) :
  is_data_call c = false -> quiet (perform c answer).
Proof.
  intros Hc w. cbn. unfold data_calls.
  rewrite List.filter_app. cbn. rewrite Hc. apply app_nil_r.
Qed.

Lemma safe_ret (a : A) : safe (ret a).
Proof. intros w. now exists a. Qed.

Lemma safe_bind (m : M A) (k : A -> M B) :
  safe m -> (forall a, safe (k a)) -> safe (bind m k).
Proof.
  intros Hm Hk w. unfold bind. destruct (Hm w) as [a Ha].
  destruct (m w) as [r w1]. cbn in Ha. subst r. apply Hk.
Qed.

Lemma safe_try_except (m handler : M A) :
  safe handler -> safe (try_except m handler).
Proof.
  intros Hh w. unfold try_except, try_except_as.
  destruct (m w) as [[a|e] w1]; [now exists a | apply Hh].
Qed.

End Effects.

Lemma quiet_get_connected : quiet get_connected.
Proof. intros w. reflexivity. Qed.

Lemma quiet_set_connected b : quiet (set_connected b).
Proof. intros w. reflexivity. Qed.

Lemma safe_get_connected : safe get_connected.
Proof. intros w. now eexists. Qed.

Lemma safe_set_connected b : safe (set_connected b).
Proof. intros w. now eexists. Qed.

Create HintDb effects.
#[local] Hint Resolve quiet_ret quiet_raise quiet_lift quiet_get_connected
  quiet_set_connected safe_ret safe_get_connected safe_set_connected : effects.

Ltac effects_step :=
  match goal with
  | |- quiet (bind _ _) => apply quiet_bind; [|intros ?]
  | |- quiet (try_except _ _) => apply quiet_try_except
  | |- quiet (perform _ _) => apply quiet_perform; reflexivity
  | |- safe (bind _ _) => apply safe_bind; [|intros ?]
  | |- safe (try_except _ _) => apply safe_try_except
  | |- context [if ?b then _ else _] => destruct b
  | |- _ => solve [auto with effects]
  end.

Lemma quiet_connect_if_needed env : quiet (_connect_if_needed env).
Proof. unfold _connect_if_needed. repeat effects_step. Qed.

Lemma quiet_ensure_connection env : quiet (_ensure_connection env).
Proof.
  pose proof (quiet_connect_if_needed env).
  unfold _ensure_connection. repeat effects_step.
Qed.

Lemma safe_connect_if_needed env : safe (_connect_if_needed env).
Proof. unfold _connect_if_needed. repeat effects_step. Qed.

Lemma safe_ensure_connection env : safe (_ensure_connection env).
Proof.
  pose proof (safe_connect_if_needed env).
  unfold _ensure_connection. repeat effects_step.
Qed.

(** What an operation does once the connection check has answered. *)
Lemma after_check {X} env (k : bool -> M X) w ok w1 :
  _ensure_connection env w = (Ok ok, w1) ->
  bind (_ensure_connection env) k w = k ok w1.
Proof. intros H. unfold bind. now rewrite H. Qed.

(** C1: when [_ensure_connection] returns [False], every fetch operation
    returns its empty or default value (an empty table, an empty mapping, the
    placeholder mapping) without raising, in the state the check left, and
    no remote data call has been made. *)
Theorem fetch_without_connection env w w1 :
  _ensure_connection env w = (Ok false, w1) ->
  get_stock_list env w = (Ok (Frame Pandas.empty_frame), w1)
  /\ (forall symbol start_date end_date,
        get_stock_daily env symbol start_date end_date w
        = (Ok Pandas.empty_frame, w1))
  /\ (forall symbol,
        get_stock_info env symbol w = (Ok (default_info symbol "wind_error"), w1))
  /\ (forall symbol period,
        get_financial_data env symbol period w = (Ok ∅, w1))
  /\ (forall keyword,
        search_stocks env keyword w = (Ok Pandas.empty_frame, w1))
  /\ data_calls (history w1) = data_calls (history w).
Proof.
  intros Hcheck. repeat split; intros;
    try (unfold get_stock_list, get_stock_daily, get_stock_info,
           get_financial_data, search_stocks;
         now rewrite (after_check _ _ _ _ _ Hcheck)).
  pose proof (quiet_ensure_connection env w) as Hq.
  now rewrite Hcheck in Hq.
Qed.

Lemma fetch_without_connection_witness :
  get_stock_daily no_terminal (AStr "000001.SZ") None None offline
  = (Ok Pandas.empty_frame, offline).
Proof.
  refine (proj1 (proj2 (fetch_without_connection no_terminal offline offline _))
            _ _ _).
  reflexivity.
Defined.

(** ** Financial statements *)




Lemma failed_not_succeeded answer df : failed answer -> ~ succeeded answer df.
Proof.
  intros Hfail (sheet & -> & Hcode & Hdata & Hdf). cbn in Hfail.
  destruct Hfail as [? | [? | [e He]]]; congruence.
Qed.

(** One statement block: it never raises, and it files the rows of its own
    answer under its own key. *)
Lemma fetch_statement_run env key fields code options financials w :
  fetch_statement env key fields code options financials w
  = (Ok (<[key := statement_rows
                    (wss_answer env (history w) code fields options)]>
           financials),
     after_vendor env (Wss code fields options) w).
Proof.
  unfold fetch_statement, try_except, try_except_as, bind, vendor, wss_answer,
    after_vendor.
  destruct (WIND_AVAILABLE env); [|reflexivity].
  cbn. destruct (w_wss env (history w) code fields options) as [sheet|e];
    [|reflexivity].
  cbn. unfold reshaped.
  destruct ((ErrorCode sheet =? 0)%Z && bool_decide (is_Some (Data sheet)));
    [|reflexivity].
  cbn. now destruct (Pandas.set_columns _ _).
Qed.

Lemma wss_answer_after env c w code fields options :
  wss_answer env (history (after_vendor env c w)) code fields options
  = wss_answer env (history w ++ [c]) code fields options.
Proof. unfold wss_answer, after_vendor. now destruct (WIND_AVAILABLE env). Qed.

(** The whole operation on a string symbol, once the check has passed. *)
Lemma get_financial_data_run env w w1 s period :
  _ensure_connection env w = (Ok true, w1) ->
  let code := normalize_symbol s in
  let options := wss_options (today_compact env) period in
  let c1 := Wss code balance_fields options in
  let c2 := Wss code income_fields options in
  let c3 := Wss code cashflow_fields options in
  get_financial_data env (AStr s) period w
  = (Ok (<["cash_flow" := statement_rows
             (wss_answer env (history w1 ++ [c1; c2]) code cashflow_fields options)]>
          (<["income_statement" := statement_rows
               (wss_answer env (history w1 ++ [c1]) code income_fields options)]>
             (<["balance_sheet" := statement_rows
                  (wss_answer env (history w1) code balance_fields options)]>
                ∅))),
     after_vendor env c3 (after_vendor env c2 (after_vendor env c1 w1))).
Proof.
  intros Hcheck code options c1 c2 c3.
  unfold get_financial_data. rewrite (after_check _ _ _ _ _ Hcheck).
  cbn [negb]. unfold try_except, try_except_as, bind at 1, lift.
  cbn [_normalize_symbol]. fold code. fold options.
  unfold bind. rewrite !fetch_statement_run. cbn [ret].
  rewrite !wss_answer_after. unfold ret.
  do 3 f_equal.
  - unfold wss_answer, after_vendor.
    destruct (WIND_AVAILABLE env); [|reflexivity].
    cbn. now rewrite <- app_assoc.
Qed.



Lemma safe_get_financial_data env symbol period :
  safe (get_financial_data env symbol period).
Proof.
  pose proof (safe_ensure_connection env).
  unfold get_financial_data. repeat effects_step.
Qed.

(** C10: [get_financial_data] tells a failed connection check from failed
    statements by shape.  After a failed check the mapping has no key.
    After a passed check, and with the symbol normalised, it has exactly
    the keys [balance_sheet], [income_statement], [cash_flow], whatever the
    three queries did.  The one step outside the three handlers that can
    raise is the normalisation of a symbol that is not a string, and then
    again the mapping has no key. *)
Theorem financial_data_shape env w w1 symbol period :
  (_ensure_connection env w = (Ok false, w1) ->
   fst (get_financial_data env symbol period w) = Ok ∅)
  /\ (_ensure_connection env w = (Ok true, w1) ->
      (forall code, _normalize_symbol symbol = Ok code ->
         exists snapshot,
           fst (get_financial_data env symbol period w) = Ok snapshot
           /\ dom snapshot
              = {[ "balance_sheet"; "income_statement"; "cash_flow" ]})
      /\ (forall e, _normalize_symbol symbol = Raise e ->
            fst (get_financial_data env symbol period w) = Ok ∅)).
Proof.
  split; [|intros Hcheck; split].
  - intros Hcheck. unfold get_financial_data.
    now rewrite (after_check _ _ _ _ _ Hcheck).
  - intros code Hcode. destruct symbol as [s|r]; [|discriminate].
    rewrite (get_financial_data_run _ _ _ _ _ Hcheck).
    eexists. split; [reflexivity|].
    rewrite !dom_insert_L, dom_empty_L. set_solver.
  - intros e He. destruct symbol as [s|r]; [discriminate|].
    unfold get_financial_data. rewrite (after_check _ _ _ _ _ Hcheck).
    reflexivity.
Qed.

Lemma financial_data_shape_witness :
  exists snapshot,
    fst (get_financial_data terminal (AStr "600000") "20241231" online)
    = Ok snapshot
    /\ dom snapshot = {[ "balance_sheet"; "income_statement"; "cash_flow" ]}.
Proof.
  refine (proj1 (proj2 (financial_data_shape terminal online checked
                          (AStr "600000") "20241231") _) _ _);
    reflexivity.
Defined.

(** ** Company metadata *)

Lemma safe_get_stock_info env symbol : safe (get_stock_info env symbol).
Proof.
  pose proof (safe_ensure_connection env).
  unfold get_stock_info. repeat effects_step.
Qed.

Lemma default_info_shape symbol source :
  dom (default_info symbol source) = {[ "symbol"; "name"; "source" ]}
  /\ default_info symbol source !! "symbol" = Some (arg_value symbol)
  /\ default_info symbol source !! "name"
     = Some (VStr ("股票" +:+ py_format symbol))
  /\ default_info symbol source !! "source" = Some (VStr source).
Proof.
  unfold default_info. split; [|repeat split; now simplify_map_eq].
  rewrite !dom_insert_L, dom_empty_L. set_solver.
Qed.

(** What [get_stock_info] returns when the check has passed and the query
    failed. *)
Lemma get_stock_info_failed env w w1 symbol :
  _ensure_connection env w = (Ok true, w1) ->
  (forall code,
      _normalize_symbol symbol = Ok code ->
      failed (wsd_answer env (history w1) code info_fields
                         "2024-01-01" "2024-01-02" "")) ->
  fst (get_stock_info env symbol w) = Ok (default_info symbol "wind_error")
  \/ fst (get_stock_info env symbol w) = Ok (default_info symbol "wind").
Proof.
  intros Hcheck Hfail. unfold get_stock_info.
  rewrite (after_check _ _ _ _ _ Hcheck). cbn [negb].
  unfold try_except, try_except_as, bind, lift.
  destruct (_normalize_symbol symbol) as [code|e]; [|now left].
  specialize (Hfail code eq_refl). unfold wsd_answer in Hfail.
  unfold vendor. destruct (WIND_AVAILABLE env); [|now left].
  cbn. destruct (w_wsd env (history w1) code info_fields _ _ _) as [wd|e];
    [|now left].
  cbn in Hfail. unfold reshaped in Hfail.
  destruct (ErrorCode wd =? 0)%Z eqn:Hcode; [|now right].
  destruct (Data wd) eqn:Hdata; [|now right].
  cbn. destruct (Pandas.set_columns _ _) as [df|e]; [|now left].
  apply Z.eqb_eq in Hcode.
  destruct Hfail as [? | [? | [e ?]]]; congruence.
Qed.

(** C6, as stated, fails: without a connection the mapping returned for a
    symbol has three keys; [code], [area], [industry], [market] and
    [list_date] of the success case are not in it. *)
Lemma stock_info_fallback_lacks_keys :
  _ensure_connection no_terminal offline = (Ok false, offline)
  /\ exists info,
      get_stock_info no_terminal (AStr "000001") offline = (Ok info, offline)
      /\ info !! "code" = None /\ info !! "area" = None
      /\ info !! "industry" = None /\ info !! "market" = None
      /\ info !! "list_date" = None.
Proof.
  split; [reflexivity|].
  exists (default_info (AStr "000001") "wind_error").
  split; [reflexivity|]. unfold default_info. repeat split; now simplify_map_eq.
Qed.

(** C6, amended: [get_stock_info] never raises, and on disconnection or a
    remote error (the query raises, returns a non-zero status or no data, or
    a payload that does not reshape) it returns the mapping with exactly the
    keys [symbol], [name], [source]: the symbol as given, the placeholder name
    made from it, and the source tag [wind_error] or [wind] ([wind_error] on
    disconnection). *)
Theorem stock_info_fallback env w w1 symbol :
  (exists info, fst (get_stock_info env symbol w) = Ok info)
  /\ (_ensure_connection env w = (Ok false, w1)
      \/ (_ensure_connection env w = (Ok true, w1)
          /\ forall code,
              _normalize_symbol symbol = Ok code ->
              failed (wsd_answer env (history w1) code info_fields
                                 "2024-01-01" "2024-01-02" "")) ->
      exists source,
        (source = "wind_error" \/ source = "wind")
        /\ (_ensure_connection env w = (Ok false, w1) -> source = "wind_error")
        /\ fst (get_stock_info env symbol w) = Ok (default_info symbol source)
        /\ dom (default_info symbol source) = {[ "symbol"; "name"; "source" ]}
        /\ default_info symbol source !! "symbol" = Some (arg_value symbol)
        /\ default_info symbol source !! "name"
           = Some (VStr ("股票" +:+ py_format symbol))
        /\ default_info symbol source !! "source" = Some (VStr source)).
Proof.
  split; [apply safe_get_stock_info|].
  intros [Hcheck | [Hcheck Hfail]].
  - exists "wind_error". repeat split; try apply default_info_shape; auto.
    unfold get_stock_info. now rewrite (after_check _ _ _ _ _ Hcheck).
  - destruct (get_stock_info_failed _ _ _ _ Hcheck Hfail) as [Hrun|Hrun];
      [exists "wind_error" | exists "wind"];
      repeat split; try apply default_info_shape; auto;
      intros Hno; rewrite Hcheck in Hno; discriminate.
Qed.

Lemma stock_info_fallback_witness :
  exists source,
    (source = "wind_error" \/ source = "wind")
    /\ (_ensure_connection terminal online = (Ok false, checked) ->
        source = "wind_error")
    /\ fst (get_stock_info terminal (AStr "000001") online)
       = Ok (default_info (AStr "000001") source)
    /\ dom (default_info (AStr "000001") source)
       = {[ "symbol"; "name"; "source" ]}
    /\ default_info (AStr "000001") source !! "symbol" = Some (VStr "000001")
    /\ default_info (AStr "000001") source !! "name"
       = Some (VStr ("股票" +:+ "000001"))
    /\ default_info (AStr "000001") source !! "source" = Some (VStr source).
Proof.
  apply (proj2 (stock_info_fallback terminal online checked (AStr "000001"))).
  right. split; [reflexivity|].
  intros code Hcode. injection Hcode as <-. left. discriminate.
Defined.

(** ** Tables *)

Section Tables.

Import Pandas.

Lemma has_column_true c df : has_column c df = true <-> c ∈ labels df.
Proof.
  unfold has_column. rewrite existsb_exists. split.
  - intros (x & Hin & Heq). apply String.eqb_eq in Heq. subst x.
    now apply list_elem_of_In.
  - intros Hin. exists c. split; [now apply list_elem_of_In|].
    apply String.eqb_refl.
Qed.

Lemma has_column_false c df : has_column c df = false <-> c ∉ labels df.
Proof.
  rewrite <- has_column_true. now destruct (has_column c df).
Qed.

Lemma filter_label_absent c (cols : list (string * list pyval)) :
  c ∉ cols.*1 -> filter (fun x => String.eqb c (fst x) = true) cols = [].
Proof.
  induction cols as [|[k v] cols IH]; [reflexivity|].
  rewrite fmap_cons. intros Hnot.
  apply not_elem_of_cons in Hnot as [Hne Hnot]. cbn [fst] in Hne.
  rewrite filter_cons. cbn [fst]. case_decide as Heq.
  - apply String.eqb_eq in Heq. congruence.
  - auto.
Qed.

Lemma filter_label_unique c (cols : list (string * list pyval)) :
  NoDup cols.*1 -> c ∈ cols.*1 ->
  exists v, filter (fun x => String.eqb c (fst x) = true) cols = [(c, v)].
Proof.
  induction cols as [|[k v] cols IH].
  - intros _ Hin. now apply elem_of_nil in Hin.
  - rewrite fmap_cons. cbn [fst]. intros Hnd Hin.
    apply NoDup_cons in Hnd as [Hk Hnd].
    rewrite filter_cons. cbn [fst]. case_decide as Heq.
    + apply String.eqb_eq in Heq. subst k. exists v.
      now rewrite filter_label_absent.
    + apply elem_of_cons in Hin as [->|Hin]; [|auto].
      now rewrite String.eqb_refl in Heq.
Qed.

Lemma getitem_unique c df :
  NoDup (labels df) -> c ∈ labels df -> exists vals, getitem c df = Ok vals.
Proof.
  intros Hnd Hin. unfold getitem.
  destruct (filter_label_unique c (columns df) Hnd Hin) as [v ->].
  now exists v.
Qed.

Lemma labels_setitem c vals df :
  labels (setitem c vals df)
  = if has_column c df then labels df else (labels df ++ [c])%list.
Proof.
  unfold labels, setitem. cbn. destruct (has_column c df).
  - induction (columns df) as [|[k v] cols IH]; [reflexivity|].
    cbn. rewrite IH. now destruct (String.eqb c k).
  - now rewrite fmap_app.
Qed.

Lemma setitem_keeps c vals df l :
  l ∈ labels df -> l ∈ labels (setitem c vals df).
Proof.
  rewrite labels_setitem. destruct (has_column c df); [auto|].
  intros Hin. apply elem_of_app. now left.
Qed.

Lemma setitem_adds c vals df : c ∈ labels (setitem c vals df).
Proof.
  rewrite labels_setitem. destruct (has_column c df) eqn:Hc.
  - now apply has_column_true.
  - apply elem_of_app. right. apply list_elem_of_here.
Qed.

Lemma setitem_only c vals df l :
  l ∈ labels (setitem c vals df) -> l ∈ labels df \/ l = c.
Proof.
  rewrite labels_setitem. destruct (has_column c df); [auto|].
  intros Hin. apply elem_of_app in Hin as [Hin|Hin]; [auto|].
  apply list_elem_of_singleton in Hin. auto.
Qed.

Lemma setitem_NoDup c vals df :
  NoDup (labels df) -> NoDup (labels (setitem c vals df)).
Proof.
  intros Hnd. rewrite labels_setitem. destruct (has_column c df) eqn:Hc; [auto|].
  apply has_column_false in Hc. apply NoDup_app. repeat split; auto.
  - intros x Hx Hx'. apply list_elem_of_singleton in Hx'. congruence.
  - apply NoDup_singleton.
Qed.

(** The copying loop on a table without repeated labels: it does not raise,
    keeps every column, adds the new name of every old name it finds, and
    adds nothing else. *)
Lemma copy_columns_run mapping : forall df,
  NoDup (labels df) ->
  exists df',
    copy_columns mapping df = Ok df'
    /\ NoDup (labels df')
    /\ index df' = index df
    /\ index_name df' = index_name df
    /\ (forall l, l ∈ labels df -> l ∈ labels df')
    /\ (forall old_col new_col,
          (old_col, new_col) ∈ mapping -> old_col ∈ labels df ->
          new_col ∈ labels df')
    /\ (forall l, l ∈ labels df' -> l ∈ labels df \/ l ∈ mapping.*2).
Proof.
  induction mapping as [|[old_col new_col] rest IH]; intros df Hnd.
  - exists df. repeat split; auto.
    intros ? ? Hin. now apply elem_of_nil in Hin.
  - cbn [copy_columns]. destruct (has_column old_col df) eqn:Hold.
    + apply has_column_true in Hold.
      destruct (getitem_unique _ _ Hnd Hold) as [vals ->].
      destruct (IH (setitem new_col vals df) (setitem_NoDup _ _ _ Hnd))
        as (df' & Hrun & Hnd' & Hidx & Hname & Hkeep & Hadd & Honly).
      exists df'. repeat split; auto.
      * intros l Hl. now apply Hkeep, setitem_keeps.
      * intros o n Hin Ho. apply elem_of_cons in Hin as [Heq|Hin].
        -- injection Heq as -> ->. apply Hkeep, setitem_adds.
        -- apply (Hadd o n Hin). now apply setitem_keeps.
      * intros l Hl. cbn. rewrite elem_of_cons.
        destruct (Honly l Hl) as [Hin|Hin]; [|auto].
        apply setitem_only in Hin as [Hin|Hin]; auto.
    + apply has_column_false in Hold.
      destruct (IH df Hnd)
        as (df' & Hrun & Hnd' & Hidx & Hname & Hkeep & Hadd & Honly).
      exists df'. repeat split; auto.
      * intros o n Hin Ho. apply elem_of_cons in Hin as [Heq|Hin].
        -- injection Heq as -> ->. contradiction.
        -- now apply (Hadd o n).
      * intros l Hl. cbn. rewrite elem_of_cons.
        destruct (Honly l Hl); auto.
Qed.

Lemma filter_label_overwrite l c vals (cols : list (string * list pyval)) :
  l <> c ->
  filter (fun x => String.eqb l (fst x) = true)
         (map (fun x => if String.eqb c (fst x) then (fst x, vals) else x) cols)
  = filter (fun x => String.eqb l (fst x) = true) cols.
Proof.
  intros Hne. induction cols as [|[k v] cols IH]; [reflexivity|].
  cbn [map fst]. destruct (String.eqb c k) eqn:Hck.
  - apply String.eqb_eq in Hck. subst k.
    rewrite !filter_cons, IH. cbn [fst].
    assert (String.eqb l c = false) as -> by now apply String.eqb_neq.
    now repeat case_decide.
  - now rewrite !filter_cons, IH.
Qed.

Lemma getitem_setitem_ne l c vals df :
  l <> c -> getitem l (setitem c vals df) = getitem l df.
Proof.
  intros Hne. unfold getitem, setitem. cbn [columns].
  destruct (has_column c df).
  - now rewrite filter_label_overwrite.
  - rewrite filter_app, filter_cons, filter_nil. cbn [fst].
    assert (String.eqb l c = false) as -> by now apply String.eqb_neq.
    case_decide; [discriminate|]. now rewrite app_nil_r.
Qed.

Lemma getitem_setitem_eq c vals df :
  NoDup (labels df) -> getitem c (setitem c vals df) = Ok vals.
Proof.
  intros Hnd.
  destruct (filter_label_unique c (columns (setitem c vals df)))
    as [v Hv].
  - now apply setitem_NoDup.
  - apply setitem_adds.
  - unfold getitem. rewrite Hv. cbn. f_equal.
    assert (Hin : (c, v) ∈ columns (setitem c vals df)).
    { eapply (list_elem_of_filter (fun x => String.eqb c (fst x) = true)).
      rewrite Hv. apply list_elem_of_here. }
    unfold setitem in Hin. cbn [columns] in Hin.
    destruct (has_column c df) eqn:Hc.
    + apply list_elem_of_In, in_map_iff in Hin as ([k u] & Heq & _).
      cbn [fst] in Heq. destruct (String.eqb c k) eqn:Hck.
      * now injection Heq as _ <-.
      * injection Heq as -> _. now rewrite String.eqb_refl in Hck.
    + apply has_column_false in Hc.
      apply elem_of_app in Hin as [Hin|Hin].
      * exfalso. apply Hc. unfold labels.
        now apply (list_elem_of_fmap_2 fst) in Hin.
      * apply list_elem_of_singleton in Hin. congruence.
Qed.


(** The copying loop when no new name is an old name and no new name comes
    twice: a column outside the new names keeps its cells, and every new
    name holds the cells of its old name. *)
Lemma copy_columns_values mapping : forall df df',
  NoDup (labels df) ->
  NoDup mapping.*2 ->
  (forall old_col new_col, (old_col, new_col) ∈ mapping -> new_col ∉ mapping.*1) ->
  copy_columns mapping df = Ok df' ->
  (forall l, l ∉ mapping.*2 -> getitem l df' = getitem l df)
  /\ (forall old_col new_col,
        (old_col, new_col) ∈ mapping -> old_col ∈ labels df ->
        getitem new_col df' = getitem old_col df).
Proof.
  induction mapping as [|[old_col new_col] rest IH];
    intros df df' Hnd Hnew Hsep Hrun.
  - injection Hrun as <-. split; [reflexivity|].
    intros ? ? Hin. now apply elem_of_nil in Hin.
  - rewrite fmap_cons in Hnew. cbn [snd] in Hnew.
    apply NoDup_cons in Hnew as [Hfresh Hnew].
    assert (Hsep' : forall o n, (o, n) ∈ rest -> n ∉ rest.*1).
    { intros o n Hin Hn. apply (Hsep o n); [now apply list_elem_of_further|].
      rewrite fmap_cons. now apply list_elem_of_further. }
    assert (Hold_new : forall o n, (o, n) ∈ rest -> o <> new_col).
    { intros o n Hin ->. apply (Hsep old_col new_col); [apply list_elem_of_here|].
      rewrite fmap_cons. apply list_elem_of_further.
      now apply (list_elem_of_fmap_2 fst) in Hin. }
    cbn [copy_columns] in Hrun.
    destruct (has_column old_col df) eqn:Hold.
    + apply has_column_true in Hold.
      destruct (getitem_unique _ _ Hnd Hold) as [vals Hvals].
      rewrite Hvals in Hrun.
      destruct (IH _ _ (setitem_NoDup new_col vals _ Hnd) Hnew Hsep' Hrun)
        as [Hother Hcopy].
      split.
      * intros l Hl. rewrite fmap_cons in Hl. cbn [snd] in Hl.
        apply not_elem_of_cons in Hl as [Hne Hl].
        rewrite (Hother l Hl). now apply getitem_setitem_ne.
      * intros o n Hin Ho. apply elem_of_cons in Hin as [Heq|Hin].
        -- injection Heq as -> ->.
           rewrite (Hother new_col Hfresh), Hvals.
           now apply getitem_setitem_eq.
        -- rewrite (Hcopy o n Hin) by now apply setitem_keeps.
           apply getitem_setitem_ne. now apply (Hold_new o n).
    + apply has_column_false in Hold.
      destruct (IH _ _ Hnd Hnew Hsep' Hrun) as [Hother Hcopy].
      split.
      * intros l Hl. rewrite fmap_cons in Hl.
        apply not_elem_of_cons in Hl as [_ Hl]. auto.
      * intros o n Hin Ho. apply elem_of_cons in Hin as [Heq|Hin]; [|auto].
        injection Heq as -> ->. contradiction.
Qed.


End Tables.

(** ** Daily bars *)








(** ** Keyword search *)

Lemma safe_get_stock_list env : safe (get_stock_list env).
Proof.
  pose proof (safe_ensure_connection env).
  unfold get_stock_list. repeat effects_step.
Qed.

(** C8: the code at a keyword that is not a valid regular expression.
    pandas compiles the keyword, the error is caught by the handler of
    [search_stocks], and the result is the empty table whatever the symbol
    list holds, also when names contain the keyword as a substring. *)
Theorem search_stocks_rejected_keyword env keyword e w :
  re_compile env keyword = Raise e ->
  exists w', search_stocks env keyword w = (Ok Pandas.empty_frame, w').
Proof.
  intros Hre. unfold search_stocks, bind at 1.
  destruct (safe_ensure_connection env w) as [ok Hok].
  destruct (_ensure_connection env w) as [r w1]. cbn in Hok. subst r.
  destruct ok; cbn [negb]; [|now eexists].
  unfold try_except, try_except_as, bind at 1.
  destruct (get_stock_list env w1) as [[[stock_list|text]|e1] w2];
    try now eexists.
  destruct (Pandas.empty stock_list); [now eexists|].
  unfold bind at 1, column_contains, bind, lift.
  destruct (Pandas.getitem "name" stock_list) as [cells|e1]; [|now eexists].
  destruct (Pandas.str_accessor cells) as [cells'|e1]; [|now eexists].
  rewrite Hre. now eexists.
Qed.

Lemma search_stocks_rejected_keyword_witness :
  exists stock_list w1 w',
    get_stock_list terminal online = (Ok (Frame stock_list), w1)
    /\ Pandas.getitem "name" stock_list
       = Ok [VStr "平安银行"; VStr "*ST海润"]
    /\ PyStr.occurs "*ST" "*ST海润" = true
    /\ search_stocks terminal "*ST" online = (Ok Pandas.empty_frame, w').
Proof.
  destruct (search_stocks_rejected_keyword terminal "*ST" ReError online eq_refl)
    as [w' Hrun].
  eexists _, _, w'. split; [vm_compute; reflexivity|].
  split; [reflexivity|]. split; [reflexivity | exact Hrun].
Defined.

(** The same search with a keyword of ordinary characters keeps the rows
    that contain it. *)
Example search_stocks_plain_keyword :
  exists stock_list w1 w',
    get_stock_list terminal online = (Ok (Frame stock_list), w1)
    /\ search_stocks terminal "6004" online
       = (Ok (Pandas.filter_rows [false; true] stock_list), w').
Proof. eexists _, _, _. split; vm_compute; reflexivity. Qed.

(** * Further properties of the adapter *)

(** ** Relations kept by every run *)

Section Stays.

Context {A B : Type} (R : World -> World -> Prop).
Hypothesis R_refl : forall w, R w w.
Hypothesis R_trans : forall w1 w2 w3, R w1 w2 -> R w2 w3 -> R w1 w3.

Lemma stays_ret (a : A) : stays R (ret a).
Proof. intros w. apply R_refl. Qed.

Lemma stays_raise e : stays R (@raise A e).
Proof. intros w. apply R_refl. Qed.

Lemma stays_lift (r : result A) : stays R (lift r).
Proof. intros w. apply R_refl. Qed.

Lemma stays_bind (m : M A) (k : A -> M B) :
  stays R m -> (forall a, stays R (k a)) -> stays R (bind m k).
Proof.
  intros Hm Hk w. unfold bind. specialize (Hm w).
  destruct (m w) as [[a|e] w1]; cbn in *; [|exact Hm].
  eapply R_trans; [exact Hm | apply Hk].
Qed.

(** A pure step passes its value on, or ends the run. *)
Lemma stays_bind_lift (r : result A) (k : A -> M B) :
  (forall a, r = Ok a -> stays R (k a)) -> stays R (bind (lift r) k).
Proof.
  intros Hk w. unfold bind, lift. destruct r as [a|e]; [|apply R_refl].
  now apply Hk.
Qed.

Lemma stays_try_except_as (m : M A) (handler : exn -> M A) :
  stays R m -> (forall e, stays R (handler e)) ->
  stays R (try_except_as m handler).
Proof.
  intros Hm Hh w. unfold try_except_as. specialize (Hm w).
  destruct (m w) as [[a|e] w1]; cbn in *; [exact Hm|].
  eapply R_trans; [exact Hm | apply Hh].
Qed.

Lemma stays_try_except (m handler : M A) :
  stays R m -> stays R handler -> stays R (try_except m handler).
Proof. intros Hm Hh. now apply stays_try_except_as. Qed.

End Stays.

Lemma same_self_refl w : same_self w w.
Proof. now repeat split. Qed.

Lemma same_self_trans w1 w2 w3 :
  same_self w1 w2 -> same_self w2 w3 -> same_self w1 w3.
Proof. unfold same_self. intuition congruence. Qed.

Lemma extends_refl P w : extends P w w.
Proof. exists []. split; [now rewrite app_nil_r | constructor]. Qed.

Lemma extends_trans P w1 w2 w3 :
  extends P w1 w2 -> extends P w2 w3 -> extends P w1 w3.
Proof.
  intros (l1 & H1 & F1) (l2 & H2 & F2). exists (l1 ++ l2)%list. split.
  - now rewrite H2, H1, app_assoc.
  - now apply Forall_app.
Qed.

Lemma same_self_perform {A} c (answer : list call -> result A) :
  stays same_self (perform c answer).
Proof. intros w. now repeat split. Qed.

Lemma extends_perform {A} (P : call -> Prop) c (answer : list call -> result A) :
  P c -> stays (extends P) (perform c answer).
Proof.
  intros Hc w. exists [c]. split; [reflexivity|]. now repeat constructor.
Qed.

Lemma extends_set_connected P b : stays (extends P) (set_connected b).
Proof.
  intros w. exists []. split; [cbn; now rewrite app_nil_r | constructor].
Qed.

(** One proof script for both relations: [R] is [same_self] or
    [extends P], [side] closes the side condition of a call. *)
Ltac stays_with Hrefl Htrans Hperform side :=
  repeat
    match goal with
    | |- stays _ (bind (lift _) _) =>
        apply (stays_bind_lift _ Hrefl); intros ? ?
    | |- stays _ (bind _ _) => apply (stays_bind _ Htrans); [|intros ?]
    | |- stays _ (try_except_as _ _) =>
        apply (stays_try_except_as _ Htrans); [|intros ?]
    | |- stays _ (try_except _ _) => apply (stays_try_except _ Htrans)
    | |- stays _ (ret _) => apply (stays_ret _ Hrefl)
    | |- stays _ (raise _) => apply (stays_raise _ Hrefl)
    | |- stays _ (lift _) => apply (stays_lift _ Hrefl)
    | |- stays _ (perform _ _) => apply Hperform; side
    | |- stays _ get_connected => intros ?; apply Hrefl
    | |- stays _ get_enable_cache => intros ?; apply Hrefl
    | |- stays _ get_cache_manager => intros ?; apply Hrefl
    | |- stays _ (vendor _ _ _) => unfold vendor
    | |- stays _ (cache _ _) => unfold cache
    | |- stays _ (if ?b then _ else _) => destruct b
    | |- stays _ (match ?x with _ => _ end) => destruct x
    | |- _ => solve [auto]
    end.

Ltac same_self_auto :=
  stays_with same_self_refl same_self_trans (@same_self_perform) idtac.

(** After the connection check, an operation leaves the provider object
    alone. *)
Lemma same_self_save_to_cache env symbol data :
  stays same_self (save_to_cache env symbol data).
Proof. unfold save_to_cache. same_self_auto. Qed.

Lemma same_self_cached_stock_list env :
  stays same_self (cached_stock_list env).
Proof. unfold cached_stock_list. same_self_auto. Qed.

Lemma same_self_fetch_statement env key fields code options financials :
  stays same_self (fetch_statement env key fields code options financials).
Proof. unfold fetch_statement. same_self_auto. Qed.

Lemma same_self_column_contains env keyword col stock_list :
  stays same_self (column_contains env keyword col stock_list).
Proof. unfold column_contains. same_self_auto. Qed.

(** ** The connection check *)

(** Run the two connection functions on every branch. *)
Ltac run_check :=
  unfold _ensure_connection, _connect_if_needed, disconnect, bind, try_except,
    try_except_as, ret, raise, lift, perform, get_connected, set_connected;
  repeat
    match goal with
    | |- context [if ?b then _ else _] => destruct b eqn:?
    | |- context [match ?x with Ok _ => _ | Raise _ => _ end] => destruct x eqn:?
    end;
  cbn [fst snd connected enable_cache cache_manager history negb] in *;
  repeat
    match goal with
    | H : negb ?x = _ |- _ => destruct x eqn:?; cbn [negb] in H
    | H : andb ?x _ = _ |- _ => destruct x eqn:?; cbn [andb] in H
    end;
  try discriminate; try congruence.

(** X1: the connection check never raises, and what it answers is the
    [connected] flag it leaves on the provider: [True] marks the provider
    connected, [False] marks it disconnected.  The cache settings are not
    touched. *)
Theorem check_answer_is_flag env w :
  exists b w',
    _ensure_connection env w = (Ok b, w')
    /\ connected w' = b
    /\ enable_cache w' = enable_cache w
    /\ cache_manager w' = cache_manager w.
Proof.
  run_check; eexists _, _; (split; [reflexivity|]); cbn; auto.
Qed.

Lemma connect_answer_is_flag env w :
  exists b w',
    _connect_if_needed env w = (Ok b, w')
    /\ connected w' = b
    /\ enable_cache w' = enable_cache w
    /\ cache_manager w' = cache_manager w.
Proof.
  run_check; eexists _, _; (split; [reflexivity|]); cbn; auto.
Qed.

Ltac budget i j :=
  exists i, j;
  split; [lia | split; [lia | rewrite <- ?app_assoc, ?app_nil_r; reflexivity]].

(** X2: one connection check makes at most two [w.isconnected] calls and
    at most one [w.start] call, in that order, and no other call: a failed
    reconnection is not retried. *)
Theorem check_call_budget env w :
  exists i j,
    i <= 2 /\ j <= 1
    /\ history (snd (_ensure_connection env w))
       = (history w ++ replicate i IsConnected ++ replicate j Start)%list.
Proof.
  run_check;
    first [ budget 0 0 | budget 1 0 | budget 0 1
          | budget 1 1 | budget 2 0 | budget 2 1 ].
Qed.

(** X3: a live session is not opened again.  When the vendor client
    reports the session connected, the check answers [True] after that one
    [w.isconnected] call, without [w.start], whether or not the provider was
    marked connected before. *)
Theorem live_session_not_reopened env w :
  WIND_AVAILABLE env = true ->
  w_has_isconnected env = true ->
  w_isconnected env (history w) = Ok true ->
  _ensure_connection env w
  = (Ok true, {| connected := true; enable_cache := enable_cache w;
                 cache_manager := cache_manager w;
                 history := history w ++ [IsConnected] |}).
Proof.
  intros Hwind Hattr Hlive. run_check; reflexivity.
Qed.

Lemma live_session_not_reopened_witness :
  _ensure_connection terminal online
  = (Ok true, {| connected := true; enable_cache := false;
                 cache_manager := false;
                 history := [IsConnected; IsConnected] |}).
Proof. apply (live_session_not_reopened terminal online); reflexivity. Defined.

(** X4: a dropped session is recovered within the check.  When the provider
    is marked connected but the vendor client reports the session gone, the
    check asks again, calls [w.start], and on status 0 answers [True] with
    the provider marked connected. *)
Theorem dropped_session_recovered env w :
  connected w = true ->
  WIND_AVAILABLE env = true ->
  w_has_isconnected env = true ->
  w_isconnected env (history w) = Ok false ->
  w_isconnected env (history w ++ [IsConnected]) = Ok false ->
  w_start env (history w ++ [IsConnected] ++ [IsConnected]) = Ok 0%Z ->
  _ensure_connection env w
  = (Ok true, {| connected := true; enable_cache := enable_cache w;
                 cache_manager := cache_manager w;
                 history := (history w ++ [IsConnected]) ++ [IsConnected]
                            ++ [Start] |}).
Proof.
  intros Hconn Hwind Hattr Hfirst Hsecond Hstart.
  unfold _ensure_connection, bind at 1, get_connected. rewrite Hconn. cbn [negb].
  unfold try_except, try_except_as, bind at 1. rewrite Hwind, Hattr.
  unfold bind at 1, perform. rewrite Hfirst. cbn [ret negb].
  unfold bind at 1, set_connected. cbn [connected enable_cache cache_manager history].
  unfold _connect_if_needed, bind at 1, get_connected. cbn [connected].
  rewrite Hwind, Hattr. cbn [negb].
  unfold try_except, try_except_as, bind at 1, perform. cbn [history].
  rewrite Hsecond. unfold bind at 1. cbn [history].
  rewrite <- app_assoc, Hstart. cbn [Z.eqb].
  unfold bind, set_connected, ret. cbn. now rewrite <- !app_assoc.
Qed.

Lemma dropped_session_recovered_witness :
  _ensure_connection dropped_terminal
    {| connected := true; enable_cache := false; cache_manager := false;
       history := [] |}
  = (Ok true, {| connected := true; enable_cache := false;
                 cache_manager := false;
                 history := [IsConnected; IsConnected; Start] |}).
Proof.
  apply (dropped_session_recovered dropped_terminal
           {| connected := true; enable_cache := false;
              cache_manager := false; history := [] |});
    reflexivity.
Defined.

(** X5: [disconnect] never raises.  On a provider that is not marked
    connected it does nothing; on a connected one it calls [w.stop] once, and
    the provider is marked disconnected exactly when that call returned: a
    failed stop leaves it marked connected. *)
Theorem disconnect_outcome env w :
  exists w',
    disconnect env w = (Ok tt, w')
    /\ enable_cache w' = enable_cache w
    /\ cache_manager w' = cache_manager w
    /\ (connected w = false -> w' = w)
    /\ (connected w = true -> WIND_AVAILABLE env = true ->
        history w' = (history w ++ [Stop])%list
        /\ connected w' = negb (is_ok (w_stop env (history w)))).
Proof.
  run_check; eexists; (split; [reflexivity|]); cbn;
    repeat split; auto; try congruence;
    match goal with
    | H : w_stop _ _ = _ |- _ => now rewrite H
    end.
Qed.

Lemma disconnect_outcome_witness :
  exists w',
    disconnect dropped_terminal
      {| connected := true; enable_cache := false; cache_manager := false;
         history := [] |}
    = (Ok tt, w')
    /\ history w' = [Stop] /\ connected w' = true.
Proof.
  destruct (disconnect_outcome dropped_terminal
              {| connected := true; enable_cache := false;
                 cache_manager := false; history := [] |})
    as (w' & Hrun & _ & _ & _ & Hstop).
  exists w'. split; [exact Hrun|]. now apply Hstop.
Defined.

(** ** What holds of the provider between operations *)

Lemma keeps_sound_refl I w : keeps_sound I w w.
Proof. now intros H. Qed.

Lemma keeps_sound_trans I w1 w2 w3 :
  keeps_sound I w1 w2 -> keeps_sound I w2 w3 -> keeps_sound I w1 w3.
Proof. unfold keeps_sound. auto. Qed.

Lemma same_self_sound env w w' : same_self w w' -> keeps_sound (sound env) w w'.
Proof.
  intros (Hc & He & Hm) [Hwind Hcache]. split.
  - rewrite Hc. exact Hwind.
  - now rewrite He, Hm.
Qed.

Lemma same_self_keeps_sound {A} env (m : M A) :
  stays same_self m -> stays (keeps_sound (sound env)) m.
Proof. intros Hm w. apply same_self_sound, Hm. Qed.

Lemma keeps_sound_perform env {A} c (answer : list call -> result A) :
  stays (keeps_sound (sound env)) (perform c answer).
Proof. apply same_self_keeps_sound, same_self_perform. Qed.

Lemma keeps_sound_connect env :
  stays (keeps_sound (sound env)) (_connect_if_needed env).
Proof.
  intros w [Hwind Hcache].
  run_check;
    (split; [cbn; intros; first [now auto | congruence | intuition congruence]
            | exact Hcache]).
Qed.

Lemma keeps_sound_ensure env :
  stays (keeps_sound (sound env)) (_ensure_connection env).
Proof.
  intros w [Hwind Hcache].
  run_check;
    (split; [cbn; intros; first [now auto | congruence | intuition congruence]
            | exact Hcache]).
Qed.

Lemma keeps_sound_disconnect env :
  stays (keeps_sound (sound env)) (disconnect env).
Proof.
  intros w [Hwind Hcache].
  run_check;
    (split; [cbn; intros; first [now auto | congruence | intuition congruence]
            | exact Hcache]).
Qed.

Ltac keeps_sound_auto env :=
  pose proof (keeps_sound_ensure env);
  pose proof (fun s d => same_self_keeps_sound env _ (same_self_save_to_cache env s d));
  pose proof (same_self_keeps_sound env _ (same_self_cached_stock_list env));
  pose proof (fun k f c o fin =>
                same_self_keeps_sound env _
                  (same_self_fetch_statement env k f c o fin));
  pose proof (fun k c l =>
                same_self_keeps_sound env _ (same_self_column_contains env k c l));
  stays_with (keeps_sound_refl (sound env)) (keeps_sound_trans (sound env))
             (@keeps_sound_perform env) idtac.

Lemma keeps_sound_get_stock_list env :
  stays (keeps_sound (sound env)) (get_stock_list env).
Proof. unfold get_stock_list. keeps_sound_auto env. Qed.

Lemma keeps_sound_get_stock_daily env symbol start_date end_date :
  stays (keeps_sound (sound env))
        (get_stock_daily env symbol start_date end_date).
Proof. unfold get_stock_daily. keeps_sound_auto env. Qed.

Lemma keeps_sound_get_stock_info env symbol :
  stays (keeps_sound (sound env)) (get_stock_info env symbol).
Proof. unfold get_stock_info. keeps_sound_auto env. Qed.

Lemma keeps_sound_get_financial_data env symbol period :
  stays (keeps_sound (sound env)) (get_financial_data env symbol period).
Proof. unfold get_financial_data. keeps_sound_auto env. Qed.

Lemma keeps_sound_search_stocks env keyword :
  stays (keeps_sound (sound env)) (search_stocks env keyword).
Proof.
  pose proof (keeps_sound_get_stock_list env).
  unfold search_stocks. keeps_sound_auto env.
Qed.

Ltac calls_made P :=
  first [ exists []; split; [now rewrite app_nil_r | constructor]
        | eexists; split;
          [ rewrite <- ?app_assoc; reflexivity
          | repeat match goal with
                   | |- Forall _ (_ :: _) => constructor
                   | |- Forall _ [] => constructor
                   end; unfold P; cbn; auto ] ].

Lemma extends_connect env :
  stays (extends connection_call) (_connect_if_needed env).
Proof. intros w. run_check; calls_made connection_call. Qed.

Lemma extends_ensure env :
  stays (extends connection_call) (_ensure_connection env).
Proof. intros w. run_check; calls_made connection_call. Qed.

(** What the constructor leaves. *)
Lemma init_facts env want_cache :
  sound env (__init__ env want_cache)
  /\ enable_cache (__init__ env want_cache)
     = want_cache && CACHE_AVAILABLE env && is_ok (get_cache env)
  /\ cache_manager (__init__ env want_cache)
     = enable_cache (__init__ env want_cache)
  /\ Forall connection_call (history (__init__ env want_cache)).
Proof.
  unfold __init__.
  set (self := if want_cache && CACHE_AVAILABLE env then _ else _).
  assert (Hself : connected self = false /\ history self = []
                  /\ enable_cache self
                     = want_cache && CACHE_AVAILABLE env && is_ok (get_cache env)
                  /\ cache_manager self = enable_cache self).
  { unfold self. destruct (want_cache && CACHE_AVAILABLE env);
      [destruct (get_cache env)|]; now cbn. }
  destruct Hself as (Hconn & Hhist & Hen & Hman).
  destruct (connect_answer_is_flag env self) as (b & w' & Hrun & _ & He & Hm).
  pose proof (keeps_sound_connect env self) as Hsound.
  assert (Hcalls : Forall connection_call
                     (history (snd (_connect_if_needed env self)))).
  { destruct (extends_connect env self) as (calls & -> & Hcalls).
    now rewrite Hhist. }
  rewrite Hrun in *. cbn [snd] in *. repeat split.
  - apply Hsound. split; [congruence | now rewrite Hman].
  - apply Hsound. split; [congruence | now rewrite Hman].
  - congruence.
  - congruence.
  - exact Hcalls.
Qed.

(** X6: the constructor makes connection calls only.  It leaves a provider
    that is marked connected only where the vendor client was imported, with
    the cache enabled exactly when it was asked for, the cache module was
    imported and [get_cache()] returned; the provider has a cache manager
    exactly then. *)
Theorem init_establishes env want_cache :
  sound env (__init__ env want_cache)
  /\ enable_cache (__init__ env want_cache)
     = want_cache && CACHE_AVAILABLE env && is_ok (get_cache env)
  /\ cache_manager (__init__ env want_cache)
     = enable_cache (__init__ env want_cache)
  /\ Forall connection_call (history (__init__ env want_cache)).
Proof. apply init_facts. Qed.

(** X7: every operation keeps the provider as the constructor made it: the
    cache settings do not change, and the provider is marked connected only
    where the vendor client was imported. *)
Theorem operations_keep_sound env w :
  sound env w ->
  sound env (snd (_ensure_connection env w))
  /\ sound env (snd (disconnect env w))
  /\ sound env (snd (get_stock_list env w))
  /\ (forall symbol start_date end_date,
        sound env (snd (get_stock_daily env symbol start_date end_date w)))
  /\ (forall symbol, sound env (snd (get_stock_info env symbol w)))
  /\ (forall symbol period,
        sound env (snd (get_financial_data env symbol period w)))
  /\ (forall keyword, sound env (snd (search_stocks env keyword w))).
Proof.
  intros Hsound.
  split; [now apply keeps_sound_ensure|].
  split; [now apply keeps_sound_disconnect|].
  split; [now apply keeps_sound_get_stock_list|].
  split; [intros; now apply keeps_sound_get_stock_daily|].
  split; [intros; now apply keeps_sound_get_stock_info|].
  split; [intros; now apply keeps_sound_get_financial_data|].
  intros; now apply keeps_sound_search_stocks.
Qed.

Lemma operations_keep_sound_witness :
  sound terminal (snd (search_stocks terminal "6004" online)).
Proof.
  refine (proj2 (proj2 (proj2 (proj2 (proj2 (proj2
            (operations_keep_sound terminal online _)))))) "6004").
  split; [intros _; reflexivity | reflexivity].
Defined.

(** ** No operation raises *)

Lemma safe_get_stock_daily env symbol start_date end_date :
  safe (get_stock_daily env symbol start_date end_date).
Proof.
  pose proof (safe_ensure_connection env).
  unfold get_stock_daily. repeat effects_step.
Qed.

Lemma safe_search_stocks env keyword : safe (search_stocks env keyword).
Proof.
  pose proof (safe_ensure_connection env).
  unfold search_stocks. repeat effects_step.
Qed.

Lemma safe_disconnect env : safe (disconnect env).
Proof. unfold disconnect. repeat effects_step. Qed.

(** X8: no public operation raises, whatever the vendor client, the cache
    manager and the regular-expression engine do and whatever the argument
    is: the symbol list, the daily bars, the financial statements, the
    search, the destructor and the two module-level functions all return. *)
Theorem operations_never_raise env w :
  (exists found, fst (get_stock_list env w) = Ok found)
  /\ (forall symbol start_date end_date,
        exists data,
          fst (get_stock_daily env symbol start_date end_date w) = Ok data)
  /\ (forall symbol period,
        exists snapshot,
          fst (get_financial_data env symbol period w) = Ok snapshot)
  /\ (forall keyword,
        exists results, fst (search_stocks env keyword w) = Ok results)
  /\ fst (__del__ env w) = Ok tt
  /\ (forall symbol start_date end_date g,
        exists data,
          fst (get_china_stock_data_wind env symbol start_date end_date g)
          = Ok data)
  /\ (forall symbol g,
        exists info, fst (get_china_stock_info_wind env symbol g) = Ok info).
Proof.
  split; [apply safe_get_stock_list|].
  split; [intros; apply safe_get_stock_daily|].
  split; [intros; apply safe_get_financial_data|].
  split; [intros; apply safe_search_stocks|].
  split; [destruct (safe_disconnect env w) as [[] H]; exact H|].
  split; intros; unfold get_china_stock_data_wind, get_china_stock_info_wind;
    cbn [fst]; [apply safe_get_stock_daily | apply safe_get_stock_info].
Qed.

(** ** The calls an operation makes *)

Lemma extends_weaken (P Q : call -> Prop) w w' :
  (forall c, P c -> Q c) -> extends P w w' -> extends Q w w'.
Proof.
  intros HPQ (calls & Hcalls & HP). exists calls. split; [exact Hcalls|].
  eapply Forall_impl; eauto.
Qed.

Lemma qualified_ensure env :
  stays (extends qualified_call) (_ensure_connection env).
Proof.
  intros w. apply (extends_weaken connection_call); [|apply extends_ensure].
  now intros c [-> | ->].
Qed.

Ltac qualified_side :=
  cbn;
  try match goal with
      | H : _normalize_symbol ?s = Ok _ |- _ =>
          destruct s; inversion H; subst
      end;
  auto using normalize_symbol_has_dot.

Ltac qualified_auto :=
  stays_with (extends_refl qualified_call) (extends_trans qualified_call)
             (@extends_perform) qualified_side.

Lemma qualified_save_to_cache env symbol data :
  stays (extends qualified_call) (save_to_cache env symbol data).
Proof. unfold save_to_cache. qualified_auto. Qed.

Lemma qualified_cached_stock_list env :
  stays (extends qualified_call) (cached_stock_list env).
Proof. unfold cached_stock_list. qualified_auto. Qed.

Lemma qualified_get_stock_list env :
  stays (extends qualified_call) (get_stock_list env).
Proof.
  pose proof (qualified_ensure env).
  pose proof (qualified_save_to_cache env).
  pose proof (qualified_cached_stock_list env).
  unfold get_stock_list. qualified_auto.
Qed.

(** X9: every vendor query that names a symbol names it with its market.
    In the calls any operation makes, the code passed to [w.wsd] and
    [w.wss] contains a ['.']: the symbol goes through [_normalize_symbol]
    before it reaches the vendor. *)
Theorem vendor_codes_qualified env w :
  (forall symbol start_date end_date,
      extends qualified_call w
              (snd (get_stock_daily env symbol start_date end_date w)))
  /\ (forall symbol,
        extends qualified_call w (snd (get_stock_info env symbol w)))
  /\ (forall symbol period,
        extends qualified_call w
                (snd (get_financial_data env symbol period w)))
  /\ extends qualified_call w (snd (get_stock_list env w))
  /\ (forall keyword,
        extends qualified_call w (snd (search_stocks env keyword w))).
Proof.
  pose proof (qualified_ensure env).
  pose proof (qualified_save_to_cache env).
  pose proof (qualified_get_stock_list env).
  split; [|split; [|split; [|split]]]; intros; revert w.
  - change (stays (extends qualified_call)
              (get_stock_daily env symbol start_date end_date)).
    unfold get_stock_daily. qualified_auto.
  - change (stays (extends qualified_call) (get_stock_info env symbol)).
    unfold get_stock_info. qualified_auto.
  - change (stays (extends qualified_call)
              (get_financial_data env symbol period)).
    unfold get_financial_data, fetch_statement. qualified_auto.
  - assumption.
  - change (stays (extends qualified_call) (search_stocks env keyword)).
    unfold search_stocks, column_contains. qualified_auto.
Qed.

(** Saving to the cache returns, whatever the cache manager does, and
    leaves nothing behind but the call. *)
Lemma save_to_cache_run env symbol data w :
  save_to_cache env symbol data w
  = (Ok tt, if enable_cache w && cache_manager w
            then called (CacheSave symbol data "wind") w else w).
Proof.
  unfold save_to_cache, bind, get_enable_cache, get_cache_manager, try_except,
    try_except_as, perform, called, ret.
  destruct w as [conn enabled manager h]. cbn.
  destruct enabled, manager; cbn; try reflexivity.
  now destruct (save_stock_data env h symbol data "wind").
Qed.

Lemma data_calls_app h1 h2 :
  data_calls (h1 ++ h2) = (data_calls h1 ++ data_calls h2)%list.
Proof. apply List.filter_app. Qed.

(** X10: with a passed check and the vendor client imported,
    [get_financial_data] on a string symbol makes exactly three data calls,
    whatever the answers: [w.wss] for the balance sheet, the income
    statement and the cash flow, in this order, each with the normalised
    code, the report period and today's date. *)
Theorem financial_data_calls env w s period :
  fst (_ensure_connection env w) = Ok true ->
  WIND_AVAILABLE env = true ->
  let code := normalize_symbol s in
  let options := wss_options (today_compact env) period in
  data_calls (history (snd (get_financial_data env (AStr s) period w)))
  = (data_calls (history w)
     ++ [Wss code balance_fields options; Wss code income_fields options;
         Wss code cashflow_fields options])%list.
Proof.
  intros Hok Hwind code options.
  destruct (_ensure_connection env w) as [r w1] eqn:Hcheck.
  cbn in Hok. subst r.
  pose proof (quiet_ensure_connection env w) as Hquiet.
  rewrite Hcheck in Hquiet. cbn in Hquiet. rewrite <- Hquiet.
  rewrite (get_financial_data_run _ _ _ _ _ Hcheck). cbn [snd].
  unfold after_vendor. rewrite Hwind. cbn [history].
  now rewrite <- !app_assoc, data_calls_app.
Qed.

Lemma financial_data_calls_witness :
  data_calls (history (snd (get_financial_data terminal (AStr "sh.600000")
                              "20241231" online)))
  = [Wss "600000.SH" balance_fields
         (wss_options "20240301" "20241231");
     Wss "600000.SH" income_fields
         (wss_options "20240301" "20241231");
     Wss "600000.SH" cashflow_fields
         (wss_options "20240301" "20241231")].
Proof.
  apply (financial_data_calls terminal online "sh.600000" "20241231");
    reflexivity.
Defined.

(** ** Daily bars: calls and failures *)

Ltac run_daily Hcheck :=
  unfold get_stock_daily; rewrite (after_check _ _ _ _ _ Hcheck);
  cbn [negb];
  unfold try_except, try_except_as, bind, lift, vendor, perform, raise, ret;
  cbn [_normalize_symbol].

(** X11: with a passed check and the vendor client imported,
    [get_stock_daily] on a string symbol makes exactly one data call,
    whatever the answer: [w.wsd] with the normalised code, a missing start
    date replaced by the day one year back and a missing end date by
    today.  A symbol that is not a string makes no data call. *)
Theorem daily_data_calls env w start_date end_date :
  fst (_ensure_connection env w) = Ok true ->
  WIND_AVAILABLE env = true ->
  (forall s,
      data_calls (history (snd (get_stock_daily env (AStr s) start_date
                                                end_date w)))
      = (data_calls (history w)
         ++ [Wsd (normalize_symbol s) daily_fields
                 (default (year_ago env) start_date)
                 (default (today env) end_date) daily_options])%list)
  /\ (forall r,
        data_calls (history (snd (get_stock_daily env (AObj r) start_date
                                                  end_date w)))
        = data_calls (history w)).
Proof.
  intros Hok Hwind.
  destruct (_ensure_connection env w) as [b w1] eqn:Hcheck.
  cbn in Hok. subst b.
  pose proof (quiet_ensure_connection env w) as Hquiet.
  rewrite Hcheck in Hquiet. cbn in Hquiet. rewrite <- Hquiet.
  split; intros; run_daily Hcheck; [|reflexivity].
  rewrite Hwind.
  destruct (w_wsd env (history w1) _ _ _ _ _) as [wd|e]; cbn -[save_to_cache];
    [|now rewrite data_calls_app].
  destruct (ErrorCode wd =? 0)%Z; cbn -[save_to_cache]; [|now rewrite data_calls_app].
  destruct (has_payload wd); cbn -[save_to_cache]; [|now rewrite data_calls_app].
  destruct (reshape_daily _ wd) as [data|e]; cbn -[save_to_cache];
    [|now rewrite data_calls_app].
  rewrite save_to_cache_run. cbn.
  destruct (enable_cache w1 && cache_manager w1); cbn -[save_to_cache];
    rewrite ?data_calls_app; cbn [data_calls List.filter is_data_call];
    now rewrite ?app_nil_r.
Qed.

Lemma daily_data_calls_witness :
  data_calls (history (snd (get_stock_daily terminal (AStr "000001")
                              None (Some "2024-02-01") online)))
  = [Wsd "000001.SZ" daily_fields "2023-03-02" "2024-02-01" daily_options].
Proof.
  apply (proj1 (daily_data_calls terminal online None (Some "2024-02-01")
                  eq_refl eq_refl) "000001").
Defined.

(** X12: every failure of [get_stock_daily] after a passed check ends in
    the empty table: a symbol that is not a string, a query that raises, a
    non-zero status, a payload that is missing or has no series, and a
    payload that pandas cannot reshape. *)
Theorem daily_failures env w w1 symbol start_date end_date :
  _ensure_connection env w = (Ok true, w1) ->
  (forall s,
      symbol = AStr s ->
      let answer :=
        wsd_answer env (history w1) (normalize_symbol s) daily_fields
                   (default (year_ago env) start_date)
                   (default (today env) end_date) daily_options in
      (exists e, answer = Raise e)
      \/ (exists wd,
            answer = Ok wd
            /\ (ErrorCode wd <> 0%Z \/ has_payload wd = false
                \/ exists e, reshape_daily (normalize_symbol s) wd = Raise e))) ->
  fst (get_stock_daily env symbol start_date end_date w)
  = Ok Pandas.empty_frame.
Proof.
  intros Hcheck Hfail. destruct symbol as [s|r]; run_daily Hcheck;
    [|reflexivity].
  specialize (Hfail s eq_refl). cbn zeta in Hfail. unfold wsd_answer in Hfail.
  destruct (WIND_AVAILABLE env); [|reflexivity]. cbn.
  destruct Hfail as [[e ->] | (wd & -> & Hwd)]; [reflexivity|]. cbn.
  destruct (ErrorCode wd =? 0)%Z eqn:Hcode; [|reflexivity]. cbn.
  destruct (has_payload wd) eqn:Hpay; [|reflexivity]. cbn.
  apply Z.eqb_eq in Hcode.
  destruct Hwd as [? | [? | [e ->]]]; [congruence | congruence | reflexivity].
Qed.

Lemma daily_failures_witness :
  fst (get_stock_daily terminal (AObj "600000") None None online)
  = Ok Pandas.empty_frame.
Proof.
  apply (daily_failures terminal online checked (AObj "600000") None None);
    [reflexivity | discriminate].
Defined.

(** ** The cache *)

Lemma bind_ext {A B} (m : M A) (k1 k2 : A -> M B) w :
  (forall a w', k1 a w' = k2 a w') -> bind m k1 w = bind m k2 w.
Proof. intros Hk. unfold bind. destruct (m w) as [[a|e] w1]; auto. Qed.

Lemma try_except_ext {A} (m1 m2 handler : M A) w :
  (forall w', m1 w' = m2 w') ->
  try_except m1 handler w = try_except m2 handler w.
Proof. intros Hm. unfold try_except, try_except_as. now rewrite Hm. Qed.

(** X13: what [save_stock_data] returns or raises changes neither the
    result nor the state of [get_stock_daily] and [get_stock_list]: a
    failing cache write never costs the caller the fetched data. *)
Theorem cache_save_never_interferes env save w :
  (forall symbol start_date end_date,
      get_stock_daily (with_save env save) symbol start_date end_date w
      = get_stock_daily env symbol start_date end_date w)
  /\ get_stock_list (with_save env save) w = get_stock_list env w.
Proof.
  split; intros.
  - unfold get_stock_daily, vendor.
    change (_ensure_connection (with_save env save))
      with (_ensure_connection env).
    cbn [with_save WIND_AVAILABLE w_wsd today year_ago].
    apply bind_ext. intros ok w1. destruct (negb ok); [reflexivity|].
    apply try_except_ext. intros w2.
    apply bind_ext. intros wind_code w3.
    apply bind_ext. intros wind_data w4.
    destruct (negb _); [reflexivity|].
    destruct (has_payload wind_data); [|reflexivity].
    apply bind_ext. intros data w5.
    unfold bind. now rewrite !save_to_cache_run.
  - unfold get_stock_list, vendor.
    change (_ensure_connection (with_save env save))
      with (_ensure_connection env).
    change (cached_stock_list (with_save env save))
      with (cached_stock_list env).
    cbn [with_save WIND_AVAILABLE w_wset].
    apply bind_ext. intros ok w1. destruct (negb ok); [reflexivity|].
    apply try_except_ext. intros w2.
    apply bind_ext. intros hit w3. destruct hit; [reflexivity|].
    apply bind_ext. intros wind_data w4.
    destruct (negb _); [reflexivity|].
    apply bind_ext. intros stock_list w5.
    destruct (negb _); [|reflexivity].
    apply bind_ext. intros stock_list' w6.
    apply bind_ext. intros stock_list'' w7.
    unfold bind. now rewrite !save_to_cache_run.
Qed.

Ltac run_listing Hcheck :=
  unfold get_stock_list; rewrite (after_check _ _ _ _ _ Hcheck); cbn [negb];
  unfold try_except, try_except_as, bind at 1.

(** The cache look-up, when the cache is enabled and answers. *)
Lemma cached_stock_list_found env w key found :
  enable_cache w = true ->
  cache_manager w = true ->
  find_cached_stock_data env (history w) "wind_stock_list" 24 = Ok (Some key) ->
  key <> "" ->
  load_stock_data env (history w ++ [CacheFind "wind_stock_list" 24]) key
  = Ok found ->
  cached_stock_list env w
  = (Ok match found with
        | CachedFrame df =>
            if negb (Pandas.empty df) then Some (Frame df) else None
        | CachedText s => if negb (all_space s) then Some (Text s) else None
        | CachedNone | CachedOther => None
        end,
     called (CacheLoad key) (called (CacheFind "wind_stock_list" 24) w)).
Proof.
  intros Hen Hman Hfind Hkey Hload.
  destruct w as [conn enabled manager h]. cbn in Hen, Hman, Hfind, Hload.
  subst enabled manager.
  unfold cached_stock_list, cache, bind, get_enable_cache, get_cache_manager,
    perform, called, ret.
  cbn [enable_cache cache_manager history connected].
  rewrite Hfind. destruct key as [|c key]; [congruence|]. cbn.
  rewrite Hload. destruct found as [|df|s|]; cbn; try reflexivity.
  - now destruct (Pandas.empty df).
  - now destruct (all_space s).
Qed.

(** X14: a symbol list found in the cache is returned as it is, and the
    vendor is not queried: with the cache enabled, a cache key found and a
    non-empty table loaded, [get_stock_list] returns that table after the
    two cache calls, without a remote data call. *)
Theorem stock_list_from_cache env w w1 key df :
  _ensure_connection env w = (Ok true, w1) ->
  enable_cache w1 = true ->
  cache_manager w1 = true ->
  find_cached_stock_data env (history w1) "wind_stock_list" 24 = Ok (Some key) ->
  key <> "" ->
  load_stock_data env (history w1 ++ [CacheFind "wind_stock_list" 24]) key
  = Ok (CachedFrame df) ->
  Pandas.empty df = false ->
  get_stock_list env w
  = (Ok (Frame df),
     called (CacheLoad key) (called (CacheFind "wind_stock_list" 24) w1))
  /\ data_calls (history (snd (get_stock_list env w))) = data_calls (history w).
Proof.
  intros Hcheck Hen Hman Hfind Hkey Hload Hdf.
  assert (Hrun : get_stock_list env w
                 = (Ok (Frame df),
                    called (CacheLoad key)
                           (called (CacheFind "wind_stock_list" 24) w1))).
  { run_listing Hcheck.
    rewrite (cached_stock_list_found _ _ _ _ Hen Hman Hfind Hkey Hload), Hdf.
    reflexivity. }
  split; [exact Hrun|]. rewrite Hrun. cbn [snd called history].
  pose proof (quiet_ensure_connection env w) as Hquiet.
  rewrite Hcheck in Hquiet. cbn in Hquiet.
  rewrite <- Hquiet, <- !app_assoc, data_calls_app. cbn.
  now rewrite app_nil_r.
Qed.

Lemma stock_list_from_cache_witness :
  fst (get_stock_list cached_terminal (__init__ cached_terminal true))
  = Ok (Frame cached_listing)
  /\ data_calls (history (snd (get_stock_list cached_terminal
                                 (__init__ cached_terminal true))))
     = [].
Proof.
  destruct (stock_list_from_cache cached_terminal
              (__init__ cached_terminal true)
              (snd (_ensure_connection cached_terminal
                      (__init__ cached_terminal true)))
              "wind_stock_list_wind" cached_listing)
    as [Hrun Hcalls]; try reflexivity; [discriminate|].
  split; [now rewrite Hrun | exact Hcalls].
Defined.

(** X15: text found in the cache is returned as text.  With the cache
    enabled, a cache key found and a string loaded that is not all white
    space, [get_stock_list] returns the string, not a table, and makes no
    remote data call. *)
Theorem stock_list_text_from_cache env w w1 key text :
  _ensure_connection env w = (Ok true, w1) ->
  enable_cache w1 = true ->
  cache_manager w1 = true ->
  find_cached_stock_data env (history w1) "wind_stock_list" 24 = Ok (Some key) ->
  key <> "" ->
  load_stock_data env (history w1 ++ [CacheFind "wind_stock_list" 24]) key
  = Ok (CachedText text) ->
  all_space text = false ->
  get_stock_list env w
  = (Ok (Text text),
     called (CacheLoad key) (called (CacheFind "wind_stock_list" 24) w1)).
Proof.
  intros Hcheck Hen Hman Hfind Hkey Hload Htext. run_listing Hcheck.
  rewrite (cached_stock_list_found _ _ _ _ Hen Hman Hfind Hkey Hload), Htext.
  reflexivity.
Qed.

Lemma stock_list_text_from_cache_witness :
  fst (get_stock_list text_terminal (__init__ text_terminal true))
  = Ok (Text "000001.SZ,平安银行").
Proof.
  rewrite (stock_list_text_from_cache text_terminal
             (__init__ text_terminal true)
             (snd (_ensure_connection text_terminal
                     (__init__ text_terminal true)))
             "wind_stock_list_wind" "000001.SZ,平安银行");
    try reflexivity.
  discriminate.
Defined.

(** X16: [search_stocks] returns the empty table, for every keyword,
    whenever the symbol list it gets is an empty table or is text from the
    cache. *)
Theorem search_without_listing env keyword w w1 w2 found :
  _ensure_connection env w = (Ok true, w1) ->
  get_stock_list env w1 = (Ok found, w2) ->
  (exists text, found = Text text)
  \/ (exists df, found = Frame df /\ Pandas.empty df = true) ->
  search_stocks env keyword w = (Ok Pandas.empty_frame, w2).
Proof.
  intros Hcheck Hlist Hfound.
  unfold search_stocks. rewrite (after_check _ _ _ _ _ Hcheck). cbn [negb].
  unfold try_except, try_except_as, bind at 1. rewrite Hlist.
  destruct Hfound as [[text ->] | (df & -> & Hempty)]; [reflexivity|].
  now rewrite Hempty.
Qed.

Lemma search_without_listing_witness :
  fst (search_stocks text_terminal "000001" (__init__ text_terminal true))
  = Ok Pandas.empty_frame.
Proof.
  rewrite (search_without_listing text_terminal "000001"
             (__init__ text_terminal true)
             (snd (_ensure_connection text_terminal
                     (__init__ text_terminal true)))
             (snd (get_stock_list text_terminal
                     (snd (_ensure_connection text_terminal
                             (__init__ text_terminal true)))))
             (Text "000001.SZ,平安银行"));
    [reflexivity | reflexivity | reflexivity | left; now eexists].
Defined.

(** X17: failures of [get_stock_list] after a passed check end in the
    empty table.  When the cache look-up raises, the vendor is not asked at
    all; after a cache miss, a query that raises, a non-zero status, a
    payload that does not take the field names and a payload without rows
    or columns all give the empty table. *)
Theorem stock_list_failures env w w1 :
  _ensure_connection env w = (Ok true, w1) ->
  (forall e w2,
      cached_stock_list env w1 = (Raise e, w2) ->
      get_stock_list env w = (Ok (Frame Pandas.empty_frame), w2))
  /\ (forall w2,
        cached_stock_list env w1 = (Ok None, w2) ->
        (exists e, wset_answer env (history w2) = Raise e)
        \/ (exists wd,
              wset_answer env (history w2) = Ok wd
              /\ (ErrorCode wd <> 0%Z
                  \/ (exists e, reshaped wd = Raise e)
                  \/ exists df, reshaped wd = Ok df /\ Pandas.empty df = true)) ->
        fst (get_stock_list env w) = Ok (Frame Pandas.empty_frame)).
Proof.
  intros Hcheck. split.
  - intros e w2 Hcache. run_listing Hcheck. now rewrite Hcache.
  - intros w2 Hcache Hfail. run_listing Hcheck. rewrite Hcache.
    unfold wset_answer in Hfail.
    unfold bind at 1, vendor.
    destruct (WIND_AVAILABLE env); [|reflexivity]. unfold perform.
    destruct Hfail as [[e ->] | (wd & -> & Hwd)]; [reflexivity|].
    destruct (ErrorCode wd =? 0)%Z eqn:Hcode; [|reflexivity].
    cbn [negb]. unfold bind at 1, lift.
    apply Z.eqb_eq in Hcode. unfold reshaped in Hwd.
    destruct Hwd as [? | [[e ->] | (df & -> & Hempty)]];
      [congruence | reflexivity |].
    now rewrite Hempty.
Qed.

Lemma stock_list_failures_witness :
  fst (get_stock_list refusing_terminal online)
  = Ok (Frame Pandas.empty_frame).
Proof.
  refine (proj2 (stock_list_failures refusing_terminal online checked _)
            checked _ _);
    [reflexivity | reflexivity |].
  right. exists (no_data (-40520007)). split; [reflexivity|].
  left. discriminate.
Defined.

(** ** Bare codes and qualified codes *)

Lemma before_dot_append t r :
  contains_dot t = false -> Pandas.before_dot (t +:+ String "." r) = t.
Proof.
  unfold contains_dot. induction t as [|c t IH]; [reflexivity|].
  rewrite occurs_cons. intros H. apply orb_false_iff in H as [Hc Ht].
  cbn [PyStr.startswith] in Hc. rewrite andb_true_r in Hc.
  rewrite append_cons. cbn [Pandas.before_dot].
  rewrite Ascii.eqb_sym, Hc. f_equal. auto.
Qed.

Lemma before_dot_dot_free s : contains_dot (Pandas.before_dot s) = false.
Proof.
  unfold contains_dot. induction s as [|c s IH]; [reflexivity|].
  cbn [Pandas.before_dot]. destruct (Ascii.eqb c ".") eqn:Hc; [reflexivity|].
  rewrite occurs_cons, IH. cbn [PyStr.startswith].
  now rewrite Ascii.eqb_sym, Hc.
Qed.

(** X18: the bare code and the qualified code determine each other.  For a
    symbol that holds no ['.'] once the prefixes are stripped, the text
    before the first ['.'] of the normalised code (what [get_stock_list]
    puts in the [symbol] column) is the stripped symbol, and normalising
    that text gives the normalised code again. *)
Theorem bare_code_round_trip s :
  contains_dot (strip_prefixes s) = false ->
  Pandas.before_dot (normalize_symbol s) = strip_prefixes s
  /\ normalize_symbol (Pandas.before_dot (normalize_symbol s))
     = normalize_symbol s.
Proof.
  intros Hdot.
  assert (Hbare : Pandas.before_dot (normalize_symbol s) = strip_prefixes s).
  { unfold normalize_symbol. rewrite Hdot.
    repeat match goal with
           | |- context [if ?b then _ else _] => destruct b
           end; now apply before_dot_append. }
  split; [exact Hbare|]. rewrite Hbare.
  unfold normalize_symbol.
  now rewrite (strip_prefixes_prefix_free _ (dot_free_prefix_free _ Hdot)).
Qed.

Lemma bare_code_round_trip_witness :
  Pandas.before_dot (normalize_symbol "sh.600000") = "600000"
  /\ normalize_symbol (Pandas.before_dot (normalize_symbol "sh.600000"))
     = "600000.SH".
Proof. apply (bare_code_round_trip "sh.600000"). reflexivity. Defined.

(** ** The symbol list from the vendor *)

Lemma stock_list_mapping_names :
  NoDup stock_list_mapping.*2
  /\ Forall (fun p => snd p <> "symbol" /\ fst p <> "symbol"
                      /\ (snd p ∉ (stock_list_mapping.*1)))
            stock_list_mapping.
Proof. split; apply (bool_decide_unpack _); reflexivity. Qed.

Lemma getitem_ok_label c df cells :
  Pandas.getitem c df = Ok cells -> c ∈ Pandas.labels df.
Proof.
  unfold Pandas.getitem. intros Hget.
  destruct (decide (c ∈ Pandas.labels df)) as [Hin|Hnot]; [exact Hin|].
  now rewrite (filter_label_absent _ _ Hnot) in Hget.
Qed.

(** X19: on a fresh fetch, the [symbol] column is the [ts_code] column
    without the exchange.  After a cache miss, for a vendor table with
    distinct field names among them [WIND_CODE], whose cells take the
    string accessor, [get_stock_list] returns a table that keeps every
    vendor column, has [ts_code] with the cells of [WIND_CODE], and has
    [symbol] with the text before the first ['.'] of each of them (a
    missing value for a cell that is not a string). *)
Theorem stock_list_symbol_column env w w1 w2 wd df codes :
  _ensure_connection env w = (Ok true, w1) ->
  cached_stock_list env w1 = (Ok None, w2) ->
  wset_answer env (history w2) = Ok wd ->
  ErrorCode wd = 0%Z ->
  reshaped wd = Ok df ->
  Pandas.empty df = false ->
  NoDup (Pandas.labels df) ->
  Pandas.getitem "WIND_CODE" df = Ok codes ->
  Pandas.str_accessor codes = Ok codes ->
  exists stock_list,
    fst (get_stock_list env w) = Ok (Frame stock_list)
    /\ Pandas.getitem "ts_code" stock_list = Ok codes
    /\ Pandas.getitem "symbol" stock_list = Ok (Pandas.str_split_first codes)
    /\ (forall field, field ∈ Pandas.labels df ->
          field ∈ Pandas.labels stock_list).
Proof.
  intros Hcheck Hcache Hanswer Hcode Hdf Hempty Hnd Hcodes Hstr.
  destruct stock_list_mapping_names as [Hnew Hnames].
  rewrite Forall_forall in Hnames.
  destruct (copy_columns_run stock_list_mapping df Hnd)
    as (df' & Hrun & Hnd' & _ & _ & Hkeep & Hadd & _).
  destruct (copy_columns_values stock_list_mapping df df' Hnd Hnew)
    as [_ Hcopy]; [intros o n Hin; apply (Hnames _ Hin) | exact Hrun |].
  assert (Hin : ("WIND_CODE", "ts_code") ∈ stock_list_mapping)
    by apply list_elem_of_here.
  pose proof (getitem_ok_label _ _ _ Hcodes) as Hlabel.
  assert (Hts : Pandas.getitem "ts_code" df' = Ok codes)
    by now rewrite (Hcopy _ _ Hin Hlabel).
  assert (Hhas : Pandas.has_column "ts_code" df' = true)
    by (apply has_column_true; eauto).
  exists (Pandas.setitem "symbol" (Pandas.str_split_first codes) df').
  split; [|split; [|split]].
  - run_listing Hcheck. rewrite Hcache.
    unfold wset_answer in Hanswer. unfold bind at 1, vendor.
    destruct (WIND_AVAILABLE env); [|discriminate].
    unfold perform. rewrite Hanswer, Hcode. cbn [Z.eqb negb].
    unfold reshaped in Hdf. unfold bind at 1, lift. rewrite Hdf, Hempty.
    cbn [negb]. unfold bind at 1. rewrite Hrun, Hhas.
    unfold bind at 1, bind at 1, lift. rewrite Hts.
    unfold bind at 1. rewrite Hstr. unfold ret at 1.
    unfold bind. now rewrite save_to_cache_run.
  - now rewrite getitem_setitem_ne.
  - now apply getitem_setitem_eq.
  - intros field Hfield. apply setitem_keeps. auto.
Qed.

Lemma stock_list_symbol_column_witness :
  exists stock_list,
    fst (get_stock_list terminal online) = Ok (Frame stock_list)
    /\ Pandas.getitem "ts_code" stock_list
       = Ok [VStr "000001.SZ"; VStr "600401.SH"]
    /\ Pandas.getitem "symbol" stock_list
       = Ok [VStr "000001"; VStr "600401"].
Proof.
  destruct (stock_list_symbol_column terminal online checked checked
              listing_payload
              (match reshaped listing_payload with
               | Ok df => df
               | Raise _ => Pandas.empty_frame
               end)
              [VStr "000001.SZ"; VStr "600401.SH"])
    as (stock_list & Hrun & Hts & Hsymbol & _); try reflexivity.
  - apply (bool_decide_unpack _). reflexivity.
  - exists stock_list. auto.
Defined.

(** ** Company metadata from the vendor *)

Lemma filter_iloc0 key (cols : list (string * list pyval)) :
  filter (fun x => String.eqb key (fst x) = true)
         (map (fun c => (fst c, nth 0 (snd c) VNull)) cols)
  = map (fun c => (fst c, nth 0 (snd c) VNull))
        (filter (fun x => String.eqb key (fst x) = true) cols).
Proof.
  induction cols as [|[k v] cols IH]; [reflexivity|].
  cbn [map fst snd]. rewrite !filter_cons. cbn [fst].
  case_decide; cbn [map fst snd]; now rewrite IH.
Qed.

Lemma series_get_absent key default df :
  key ∉ Pandas.labels df ->
  Pandas.series_get key default (Pandas.iloc0 df) = default.
Proof.
  intros Hnot. unfold Pandas.series_get, Pandas.iloc0.
  now rewrite filter_iloc0, (filter_label_absent _ _ Hnot).
Qed.

Lemma series_get_first key default df cells :
  Pandas.getitem key df = Ok cells ->
  Pandas.series_get key default (Pandas.iloc0 df) = nth 0 cells VNull.
Proof.
  unfold Pandas.getitem, Pandas.series_get, Pandas.iloc0.
  rewrite filter_iloc0.
  destruct (filter _ (Pandas.columns df)) as [|c [|c' rest]]; try discriminate.
  intros Hget. injection Hget as <-. reflexivity.
Qed.

(** X20: the company mapping when the vendor answers.  With a passed
    check, status 0 and a reshaped table that is not empty,
    [get_stock_info] returns a mapping with exactly the eight keys, the
    symbol as given and the source [wind]; every other entry is the first
    cell of its vendor column, or its placeholder when the vendor sent no
    such column. *)
Theorem stock_info_from_vendor env w w1 s wd df :
  _ensure_connection env w = (Ok true, w1) ->
  wsd_answer env (history w1) (normalize_symbol s) info_fields
             "2024-01-01" "2024-01-02" "" = Ok wd ->
  ErrorCode wd = 0%Z ->
  Data wd <> None ->
  reshaped wd = Ok df ->
  Pandas.empty df = false ->
  exists info,
    fst (get_stock_info env (AStr s) w) = Ok info
    /\ dom info = {[ "symbol"; "code"; "name"; "area"; "industry"; "market";
                     "list_date"; "source" ]}
    /\ info !! "symbol" = Some (VStr s)
    /\ info !! "source" = Some (VStr "wind")
    /\ forall key field placeholder,
        (key, field, placeholder) ∈ info_table (AStr s) ->
        (field ∉ Pandas.labels df -> info !! key = Some placeholder)
        /\ (forall cells,
              Pandas.getitem field df = Ok cells ->
              info !! key = Some (nth 0 cells VNull)).
Proof.
  intros Hcheck Hanswer Hcode Hdata Hdf Hempty.
  exists (info_of_row (AStr s) (Pandas.iloc0 df)).
  split; [|split; [|split; [|split]]].
  - unfold get_stock_info. rewrite (after_check _ _ _ _ _ Hcheck). cbn [negb].
    unfold try_except, try_except_as, bind at 1, lift.
    cbn [_normalize_symbol].
    unfold wsd_answer in Hanswer. unfold bind at 1, vendor.
    destruct (WIND_AVAILABLE env); [|discriminate].
    unfold perform. rewrite Hanswer, Hcode.
    assert (Hsome : bool_decide (is_Some (Data wd)) = true).
    { apply bool_decide_eq_true_2. destruct (Data wd); [eauto | congruence]. }
    rewrite Hsome. cbn [Z.eqb andb]. unfold reshaped in Hdf.
    unfold bind, lift. rewrite Hdf, Hempty. reflexivity.
  - unfold info_of_row. rewrite !dom_insert_L, dom_empty_L. set_solver.
  - unfold info_of_row. now simplify_map_eq.
  - unfold info_of_row. now simplify_map_eq.
  - intros key field placeholder Hin.
    apply list_elem_of_In in Hin. cbn in Hin.
    repeat (destruct Hin as [Heq|Hin];
            [injection Heq as <- <- <-; split;
             [intros Hnot | intros cells Hcells];
             unfold info_of_row; simplify_map_eq;
             [now rewrite series_get_absent
             | now rewrite (series_get_first _ _ _ _ Hcells)]|]).
    contradiction.
Qed.

Lemma stock_info_from_vendor_witness :
  exists info,
    fst (get_stock_info info_terminal (AStr "000001") online) = Ok info
    /\ info !! "name" = Some (VStr "平安银行")
    /\ info !! "area" = Some unknown.
Proof.
  destruct (stock_info_from_vendor info_terminal online checked "000001"
              info_payload
              (match reshaped info_payload with
               | Ok df => df
               | Raise _ => Pandas.empty_frame
               end))
    as (info & Hrun & _ & _ & _ & Hfields); try reflexivity; [discriminate|].
  exists info. split; [exact Hrun|]. split.
  - assert (Hin : ("name", "SEC_NAME", stock_label (AStr "000001"))
                  ∈ info_table (AStr "000001"))
      by apply list_elem_of_further, list_elem_of_here.
    exact (proj2 (Hfields _ _ _ Hin) [VStr "平安银行"] eq_refl).
  - assert (Hin : ("area", "PROVINCE", unknown) ∈ info_table (AStr "000001"))
      by (do 2 apply list_elem_of_further; apply list_elem_of_here).
    apply (proj1 (Hfields _ _ _ Hin)).
    apply (bool_decide_unpack _). reflexivity.
Defined.

(** ** Keyword search with a keyword that compiles *)

Lemma lookup_map {X Y} (f : X -> Y) (l : list X) i :
  map f l !! i = f <$> (l !! i).
Proof.
  revert i. induction l as [|x l IH]; intros [|i]; cbn; auto.
Qed.

Lemma lookup_mask_or a b i x y :
  a !! i = Some x -> b !! i = Some y ->
  Pandas.mask_or a b !! i = Some (x || y).
Proof.
  intros Ha Hb. unfold Pandas.mask_or. rewrite lookup_map.
  revert b i Ha Hb. induction a as [|x' a IH]; intros [|y' b] [|i];
    cbn; try discriminate.
  - now intros [= ->] [= ->].
  - apply IH.
Qed.

Lemma lookup_str_contains matcher cells i v :
  cells !! i = Some v ->
  Pandas.str_contains matcher cells !! i = Some (cell_matches matcher v).
Proof.
  intros Hv. unfold Pandas.str_contains. rewrite lookup_map, Hv.
  now destruct v.
Qed.

(** X21: a keyword that compiles selects rows by its matcher.  When the
    symbol list is a non-empty table whose [name], [symbol] and [ts_code]
    columns take the string accessor, [search_stocks] returns the rows of
    that table under a mask that keeps row [i] exactly when the compiled
    keyword matches the name, the bare code or the qualified code of the
    row; a cell that is not a string never matches. *)
Theorem search_keeps_matching_rows env keyword w w1 w2 stock_list matcher
        names symbols codes :
  _ensure_connection env w = (Ok true, w1) ->
  get_stock_list env w1 = (Ok (Frame stock_list), w2) ->
  Pandas.empty stock_list = false ->
  re_compile env keyword = Ok matcher ->
  Pandas.getitem "name" stock_list = Ok names ->
  Pandas.str_accessor names = Ok names ->
  Pandas.getitem "symbol" stock_list = Ok symbols ->
  Pandas.str_accessor symbols = Ok symbols ->
  Pandas.getitem "ts_code" stock_list = Ok codes ->
  Pandas.str_accessor codes = Ok codes ->
  exists mask,
    search_stocks env keyword w = (Ok (Pandas.filter_rows mask stock_list), w2)
    /\ forall i name symbol code,
        names !! i = Some name -> symbols !! i = Some symbol ->
        codes !! i = Some code ->
        mask !! i = Some (cell_matches matcher name
                          || cell_matches matcher symbol
                          || cell_matches matcher code).
Proof.
  intros Hcheck Hlist Hempty Hre Hn Hna Hs Hsa Hc Hca.
  eexists. split.
  - unfold search_stocks. rewrite (after_check _ _ _ _ _ Hcheck). cbn [negb].
    unfold try_except, try_except_as, bind at 1. rewrite Hlist, Hempty.
    unfold column_contains, bind, lift.
    rewrite Hn, Hna, Hs, Hsa, Hc, Hca, Hre. reflexivity.
  - intros i name symbol code Hname Hsymbol Hcode.
    apply lookup_mask_or; [apply lookup_mask_or|];
      now apply lookup_str_contains.
Qed.

Lemma search_keeps_matching_rows_witness :
  exists mask,
    search_stocks terminal "6004" online
    = (Ok (Pandas.filter_rows mask
             (match fst (get_stock_list terminal checked) with
              | Ok (Frame df) => df
              | _ => Pandas.empty_frame
              end)),
       snd (get_stock_list terminal checked))
    /\ mask !! 0 = Some false /\ mask !! 1 = Some true.
Proof.
  destruct (search_keeps_matching_rows terminal "6004" online checked
              (snd (get_stock_list terminal checked))
              (match fst (get_stock_list terminal checked) with
               | Ok (Frame df) => df
               | _ => Pandas.empty_frame
               end)
              (PyStr.occurs "6004")
              [VStr "平安银行"; VStr "*ST海润"]
              [VStr "000001"; VStr "600401"]
              [VStr "000001.SZ"; VStr "600401.SH"])
    as (mask & Hrun & Hmask); try reflexivity.
  exists mask. split; [exact Hrun|]. split.
  - apply (Hmask 0 (VStr "平安银行") (VStr "000001") (VStr "000001.SZ"));
      reflexivity.
  - apply (Hmask 1 (VStr "*ST海润") (VStr "600401") (VStr "600401.SH"));
      reflexivity.
Defined.

(** ** The module-level functions *)

Lemma get_wind_provider_sound env g :
  (forall w, g = Some w -> sound env w) -> sound env (get_wind_provider env g).
Proof.
  intros Hg. destruct g as [w|]; cbn; [auto|]. apply init_facts.
Qed.

Lemma check_without_client env w :
  WIND_AVAILABLE env = false -> sound env w ->
  _ensure_connection env w = (Ok false, w) /\ connected w = false.
Proof.
  intros Hwind [Hconn _].
  assert (Hoff : connected w = false).
  { destruct (connected w); [|reflexivity]. rewrite Hconn in Hwind; congruence. }
  split; [|exact Hoff]. run_check; reflexivity.
Qed.

(** X22: the module-level functions where the vendor client is not
    installed.  On the first call, which constructs the shared provider,
    and on every later one, [get_china_stock_data_wind] returns the empty
    table and [get_china_stock_info_wind] the placeholder mapping with
    source [wind_error]; the shared provider is kept, stays disconnected
    and has made no call on the way. *)
Theorem module_functions_without_client env symbol start_date end_date g :
  WIND_AVAILABLE env = false ->
  (forall w, g = Some w -> sound env w) ->
  let provider := get_wind_provider env g in
  get_china_stock_data_wind env symbol start_date end_date g
  = (Ok Pandas.empty_frame, Some provider)
  /\ get_china_stock_info_wind env symbol g
     = (Ok (default_info symbol "wind_error"), Some provider)
  /\ connected provider = false
  /\ sound env provider
  /\ (g = None -> history provider = []).
Proof.
  intros Hwind Hg provider.
  pose proof (get_wind_provider_sound env g Hg) as Hsound. fold provider in Hsound.
  destruct (check_without_client env provider Hwind Hsound) as [Hcheck Hoff].
  repeat split; auto.
  - unfold get_china_stock_data_wind. fold provider.
    unfold get_stock_daily. now rewrite (after_check _ _ _ _ _ Hcheck).
  - unfold get_china_stock_info_wind. fold provider.
    unfold get_stock_info. now rewrite (after_check _ _ _ _ _ Hcheck).
  - apply Hsound.
  - apply Hsound.
  - intros ->. unfold provider. cbn [get_wind_provider].
    unfold __init__.
    match goal with
    | |- history (snd (_connect_if_needed env ?self)) = [] =>
        assert (Hself : connected self = false /\ history self = [])
          by (destruct (true && CACHE_AVAILABLE env);
              [destruct (get_cache env)|]; now cbn);
        destruct Hself as [Hc Hh];
        run_check; cbn; congruence
    end.
Qed.

Lemma module_functions_without_client_witness :
  get_china_stock_data_wind no_terminal (AStr "000001.SZ") None None None
  = (Ok Pandas.empty_frame, Some offline)
  /\ get_china_stock_info_wind no_terminal (AStr "000001.SZ") None
     = (Ok (default_info (AStr "000001.SZ") "wind_error"), Some offline).
Proof.
  destruct (module_functions_without_client no_terminal (AStr "000001.SZ")
              None None None eq_refl)
    as (Hdata & Hinfo & _); [discriminate|].
  split; [exact Hdata | exact Hinfo].
Defined.
